(** * SkydioClient: a shallow embedding of [skydio_client.py]

    The client is a Python 2 class holding four fields ([baseurl],
    [access_token], [session_id], [access_level]) whose methods talk to a
    vehicle over HTTP.  The methods are embedded in a state-and-exception
    monad over the object's fields and the list of requests handed to
    [urllib2.urlopen]; everything outside the program (the server, the file
    system, the random client id) is a [world].

    Conventions of the embedding:
    - Python 2 has two kinds of strings.  A [str] is a byte string: the
      arguments of the methods, the contents of a file, the text of the
      program.  A [unicode] is what [json.loads] makes of the strings of a
      reply.  Both are a [string] here, a sequence of characters with codes
      0 to 255; a [json] holds unicode strings ([JStr]), an [arg] can hold
      byte strings too ([Bytes]);
    - formatting a unicode string that is not ASCII into a byte-string
      template raises UnicodeEncodeError, and [json.dumps] of a byte string
      that is not UTF-8 raises UnicodeDecodeError; both are kept;
    - a decoded JSON value is a [json]; numbers are integers;
    - the text that [json.dumps] makes of a request body and the text that
      [json.loads (response.read ())] reads are not spelled out: a request
      carries the body that was serialised, a response carries what its
      body decodes to;
    - [fmt_out] and [fmt_err] are kept for the exception they raise when
      they format text of the server; what they print, and [time.sleep],
      have no effect on the fields or on the requests and are left out;
    - the two polling loops take a number of iterations they may run
      ([fuel]); running out of it is the outcome [OutOfFuel]. *)

From Stdlib Require Import ZArith NArith List String Ascii Bool Lia.
From Stdlib Require Import DecimalString.
Import ListNotations.
Open Scope string_scope.
Open Scope Z_scope.
Set Warnings "-register-all".

(** ** Python values *)

Module Py.

(** What [json.loads] produces: None, bool, int, unicode, list, dict.  A
    dict is an association list looked up by its first matching key. *)
Inductive json : Type :=
| JNull
| JBool (b : bool)
| JNum (n : Z)
| JStr (s : string)
| JArr (l : list json)
| JObj (d : list (string * json)).

Definition dict (V : Type) : Type := list (string * V).

(** [d.get(k)] on a dict, [None] when the key is absent. *)
Fixpoint dict_get {V} (k : string) (d : dict V) : option V :=
  match d with
  | [] => None
  | (k', v) :: d' => if String.eqb k k' then Some v else dict_get k d'
  end.

(** [d[k] = v]: the value of an existing key is replaced, a new key is
    added. *)
Fixpoint dict_set {V} (k : string) (v : V) (d : dict V) : dict V :=
  match d with
  | [] => [(k, v)]
  | (k', v') :: d' =>
      if String.eqb k k' then (k, v) :: d' else (k', v') :: dict_set k v d'
  end.

(** Truth value of an object, as tested by [if x:] and [not x]. *)
Definition truthy (j : json) : bool :=
  match j with
  | JNull => false
  | JBool b => b
  | JNum n => negb (n =? 0)
  | JStr s => negb (String.eqb s "")
  | JArr l => match l with [] => false | _ => true end
  | JObj d => match d with [] => false | _ => true end
  end.

(** [j == s] for a string literal [s]. *)
Definition eq_str (j : json) (s : string) : bool :=
  match j with
  | JStr s' => String.eqb s' s
  | _ => false
  end.

(** [t in s] on two strings: [t] occurs in [s]. *)
Fixpoint contains (t s : string) : bool :=
  if String.prefix t s then true
  else match s with
       | EmptyString => false
       | String _ s' => contains t s'
       end.

Definition string_of_Z (n : Z) : string :=
  NilEmpty.string_of_int (Z.to_int n).

Definition is_space (c : ascii) : bool :=
  let x := N_of_ascii c in
  ((x =? 32) || ((9 <=? x) && (x <=? 13)))%N.

Fixpoint lstrip (s : string) : string :=
  match s with
  | EmptyString => EmptyString
  | String c s' => if is_space c then lstrip s' else s
  end.

Fixpoint rstrip (s : string) : string :=
  match s with
  | EmptyString => EmptyString
  | String c s' =>
      match rstrip s' with
      | EmptyString => if is_space c then EmptyString else String c EmptyString
      | r => String c r
      end
  end.

(** [s.strip()] *)
Definition strip (s : string) : string := rstrip (lstrip s).

Definition is_ascii (s : string) : bool :=
  forallb (fun c => (N_of_ascii c <=? 127)%N) (list_ascii_of_string s).

(** A continuation byte of UTF-8: 10xxxxxx. *)
Definition is_continuation (c : ascii) : bool :=
  let x := N_of_ascii c in ((128 <=? x) && (x <=? 191))%N.

(** [s.decode ('utf-8')] succeeds: the checks of the UTF-8 decoder of
    Python 2.7, which takes sequences of one to four bytes, refuses
    overlong forms and code points above 10FFFF, and lets surrogates
    pass.  [fuel] bounds the number of sequences. *)
Fixpoint valid_utf8_from (fuel : nat) (s : string) : bool :=
  match fuel with
  | O => match s with EmptyString => true | _ => false end
  | S fuel' =>
      match s with
      | EmptyString => true
      | String c0 s0 =>
          let x := N_of_ascii c0 in
          if (x <=? 127)%N then valid_utf8_from fuel' s0
          else if ((194 <=? x) && (x <=? 223))%N then
            match s0 with
            | String c1 s1 => is_continuation c1 && valid_utf8_from fuel' s1
            | _ => false
            end
          else if ((224 <=? x) && (x <=? 239))%N then
            match s0 with
            | String c1 (String c2 s2) =>
                is_continuation c1 && is_continuation c2
                && negb ((x =? 224)%N && (N_of_ascii c1 <? 160)%N)
                && valid_utf8_from fuel' s2
            | _ => false
            end
          else if ((240 <=? x) && (x <=? 244))%N then
            match s0 with
            | String c1 (String c2 (String c3 s3)) =>
                is_continuation c1 && is_continuation c2 && is_continuation c3
                && negb ((x =? 240)%N && (N_of_ascii c1 <? 144)%N)
                && negb ((x =? 244)%N && (143 <? N_of_ascii c1)%N)
                && valid_utf8_from fuel' s3
            | _ => false
            end
          else false
      end
  end.

Definition valid_utf8 (s : string) : bool :=
  valid_utf8_from (String.length s) s.

(** What the program hands to [json.dumps]: a value that came out of a
    reply, a byte string of its own, or a dict of such. *)
Inductive arg : Type :=
| Value (j : json)
| Bytes (s : string)
| Dict (d : list (string * arg)).

(** [json.dumps (a)] succeeds: every byte string in [a], keys included,
    is UTF-8. *)
Fixpoint serialisable (a : arg) : bool :=
  match a with
  | Value _ => true
  | Bytes s => valid_utf8 s
  | Dict d =>
      (fix all (d : list (string * arg)) : bool :=
         match d with
         | [] => true
         | (k, v) :: d' => valid_utf8 k && serialisable v && all d'
         end) d
  end.

End Py.
Import Py.

(** ** Exceptions and outcomes *)

(** The exception classes the client meets.  All but [SystemExit] derive
    from [Exception]. *)
Inductive exn : Type :=
| HTTPError (code : Z)
| URLError
| SocketTimeout
| IOError
| ValueError
| TypeError
| AttributeError
| KeyError (key : string)
| UnicodeEncodeError
| UnicodeDecodeError
| RuntimeError (msg : string)
| SystemExit (code : Z).

(** [isinstance(e, Exception)] *)
Definition is_Exception (e : exn) : bool :=
  match e with
  | SystemExit _ => false
  | _ => true
  end.

Inductive result (A : Type) : Type :=
| Return (a : A)
| Raise (e : exn)
| OutOfFuel.
Arguments Return {A} a.
Arguments Raise {A} e.
Arguments OutOfFuel {A}.

(** ** The world outside the program *)

(** What [urlopen] is called with: the [urllib2.Request] and the timeout. *)
Record request : Type := mkRequest {
  url : string;
  data : option arg;             (* [None]: a GET; otherwise a POST *)
  headers : dict string;
  timeout : Z
}.

(** How [urlopen] and reading the reply can fail; each is an [Exception]. *)
Inductive net_failure : Type :=
| Unreachable                     (* urllib2.URLError *)
| ErrorStatus (code : Z)          (* urllib2.HTTPError raised by urlopen *)
| TimedOut.                       (* socket.timeout *)

Definition exn_of_failure (f : net_failure) : exn :=
  match f with
  | Unreachable => URLError
  | ErrorStatus c => HTTPError c
  | TimedOut => SocketTimeout
  end.

(** What [json.loads (response.read ())] evaluates to. *)
Inductive body : Type :=
| ReadFails (f : net_failure)     (* [read] raises *)
| NotJson                         (* [json.loads] raises ValueError *)
| Json (j : json).

Record response : Type := mkResponse {
  getcode : Z;
  has_read : bool;                (* callable (getattr (response, 'read', None)) *)
  content : body
}.

Inductive urlopen_result : Type :=
| UrlFails (f : net_failure)
| UrlResponse (r : response).

Inductive fs_entry : Type :=
| NoEntry                         (* os.path.exists is False *)
| NotReadable                     (* exists, but open or read raises IOError *)
| Contents (s : string).

(** The server answers a request knowing the requests made before it.
    [repr] is the text Python prints for a list or a dict, whose element
    order is the interpreter's own. *)
Record world : Type := mkWorld {
  urlopen : list request -> request -> urlopen_result;
  filesystem : string -> fs_entry;
  uuid4 : string;
  repr : json -> string
}.

(** ** The object and the monad of its methods *)

Record client : Type := mkClient {
  baseurl : string;
  access_token : json;
  session_id : json;
  access_level : json
}.

Record state : Type := mkState {
  self : client;
  sent : list request             (* oldest first *)
}.

Definition M (A : Type) : Type := state -> result A * state.

Definition ret {A} (a : A) : M A := fun s => (Return a, s).
Definition raise {A} (e : exn) : M A := fun s => (Raise e, s).
Definition out_of_fuel {A} : M A := fun s => (OutOfFuel, s).

Definition bind {A B} (m : M A) (k : A -> M B) : M B :=
  fun s =>
    match m s with
    | (Return a, s') => k a s'
    | (Raise e, s') => (Raise e, s')
    | (OutOfFuel, s') => (OutOfFuel, s')
    end.

Notation "x <- m ;; k" := (bind m (fun x => k))
  (at level 61, m at next level, right associativity).
Notation "m ;;; k" := (bind m (fun _ => k))
  (at level 61, right associativity).

Definition get_self : M client := fun s => (Return (self s), s).
Definition set_self (f : client -> client) : M unit :=
  fun s => (Return tt, mkState (f (self s)) (sent s)).

Definition lift {A} (r : result A) : M A := fun s => (r, s).

(** [try: x = m] / [except Exception as e: h e], then [k x] when [m] did
    not raise.  The handler's result is the result of the whole. *)
Definition try_except_Exception {A B}
  (m : M A) (h : exn -> M B) (k : A -> M B) : M B :=
  fun s =>
    match m s with
    | (Return a, s') => k a s'
    | (Raise e, s') => if is_Exception e then h e s' else (Raise e, s')
    | (OutOfFuel, s') => (OutOfFuel, s')
    end.

Definition set_access_token (v : json) (c : client) : client :=
  mkClient (baseurl c) v (session_id c) (access_level c).
Definition set_session_id (v : json) (c : client) : client :=
  mkClient (baseurl c) (access_token c) v (access_level c).
Definition set_access_level (v : json) (c : client) : client :=
  mkClient (baseurl c) (access_token c) (session_id c) v.

(** ** The [base64] module

    [base64.b64encode] and [base64.b64decode] of Python 2.7 with the
    standard alphabet.  The encoder works on groups of three bytes; the
    decoder is the loop of [binascii.a2b_base64], which skips what is not in
    the alphabet and complains only about bits left over at the end. *)

Module Base64.

Local Open Scope N_scope.

Definition table_b2a_base64 : string :=
  "ABCDEFGHIJKLMNOPQRSTUVWXYZabcdefghijklmnopqrstuvwxyz0123456789+/".

Definition BASE64_PAD : ascii := "="%char.

Definition b2a (v : N) : ascii :=
  match String.get (N.to_nat v) table_b2a_base64 with
  | Some c => c
  | None => BASE64_PAD
  end.

(** [table_a2b_base64]: the value of a character, [None] for the table's
    -1.  The pad character has the value 0. *)
Definition a2b (c : ascii) : option N :=
  let x := N_of_ascii c in
  if (65 <=? x) && (x <=? 90) then Some (x - 65)
  else if (97 <=? x) && (x <=? 122) then Some (x - 71)
  else if (48 <=? x) && (x <=? 57) then Some (x + 4)
  else if x =? 43 then Some 62
  else if x =? 47 then Some 63
  else if x =? 61 then Some 0
  else None.

Fixpoint b64encode (s : string) : string :=
  match s with
  | EmptyString => EmptyString
  | String c1 EmptyString =>
      let a := N_of_ascii c1 in
      String (b2a (N.shiftr a 2))
        (String (b2a (N.shiftl (N.land a 3) 4))
           (String BASE64_PAD (String BASE64_PAD EmptyString)))
  | String c1 (String c2 EmptyString) =>
      let a := N_of_ascii c1 in
      let b := N_of_ascii c2 in
      String (b2a (N.shiftr a 2))
        (String (b2a (N.lor (N.shiftl (N.land a 3) 4) (N.shiftr b 4)))
           (String (b2a (N.shiftl (N.land b 15) 2))
              (String BASE64_PAD EmptyString)))
  | String c1 (String c2 (String c3 rest)) =>
      let a := N_of_ascii c1 in
      let b := N_of_ascii c2 in
      let c := N_of_ascii c3 in
      String (b2a (N.shiftr a 2))
        (String (b2a (N.lor (N.shiftl (N.land a 3) 4) (N.shiftr b 4)))
           (String (b2a (N.lor (N.shiftl (N.land b 15) 2) (N.shiftr c 6)))
              (String (b2a (N.land c 63)) (b64encode rest))))
  end.

(** [binascii_find_valid]: the [num]+1-th character of [s] that has a value
    in the table. *)
Fixpoint find_valid (s : string) (num : nat) : option ascii :=
  match s with
  | EmptyString => None
  | String c s' =>
      if (N_of_ascii c <=? 127)
         && match a2b c with Some _ => true | None => false end then
        match num with
        | O => Some c
        | S num' => find_valid s' num'
        end
      else find_valid s' num
  end.

Definition is_pad (o : option ascii) : bool :=
  match o with
  | Some c => Ascii.eqb c BASE64_PAD
  | None => false
  end.

(** The loop of [binascii.a2b_base64]: the bits left over when it stops,
    and the bytes produced. *)
Fixpoint a2b_loop (s : string) (quad_pos leftchar leftbits : N)
  : N * string :=
  match s with
  | EmptyString => (leftbits, EmptyString)
  | String ch rest =>
      let x := N_of_ascii ch in
      if (127 <? x) || (x =? 13) || (x =? 10) || (x =? 32) then
        a2b_loop rest quad_pos leftchar leftbits
      else if Ascii.eqb ch BASE64_PAD then
        if (quad_pos <? 2)
           || ((quad_pos =? 2) && negb (is_pad (find_valid s 1)))
        then a2b_loop rest quad_pos leftchar leftbits
        else (0, EmptyString)
      else
        match a2b ch with
        | None => a2b_loop rest quad_pos leftchar leftbits
        | Some v =>
            let quad_pos := N.land (quad_pos + 1) 3 in
            let leftchar := N.lor (N.shiftl leftchar 6) v in
            let leftbits := leftbits + 6 in
            if 8 <=? leftbits then
              let leftbits := leftbits - 8 in
              let byte := N.land (N.shiftr leftchar leftbits) 255 in
              let leftchar := N.land leftchar (N.shiftl 1 leftbits - 1) in
              let (left, out) := a2b_loop rest quad_pos leftchar leftbits in
              (left, String (ascii_of_N byte) out)
            else a2b_loop rest quad_pos leftchar leftbits
        end
  end.

(** [base64.b64decode] turns [binascii.Error] into a TypeError. *)
Definition b64decode (s : string) : result string :=
  let (left, out) := a2b_loop s 0 0 0 in
  if left =? 0 then Return out else Raise TypeError.

(** *** The decoder, one character at a time *)

(** What the decoder does with one character of value [v]: the new
    [quad_pos], [leftchar] and [leftbits], and the byte that is ready. *)
Definition shift_in (v quad_pos leftchar leftbits : N) : N * N * N * option N :=
  let quad_pos := N.land (quad_pos + 1) 3 in
  let leftchar := N.lor (N.shiftl leftchar 6) v in
  let leftbits := leftbits + 6 in
  if 8 <=? leftbits then
    (quad_pos, N.land leftchar (N.shiftl 1 (leftbits - 8) - 1), leftbits - 8,
     Some (N.land (N.shiftr leftchar (leftbits - 8)) 255))
  else (quad_pos, leftchar, leftbits, None).

Definition same (x y : N * N * N * option N) : bool :=
  let '(q1, c1, b1, o1) := x in
  let '(q2, c2, b2, o2) := y in
  (q1 =? q2) && (c1 =? c2) && (b1 =? b2)
  && match o1, o2 with
     | Some v1, Some v2 => v1 =? v2
     | None, None => true
     | _, _ => false
     end.

(** The decoder reads the character of [v] as the value [v]: it does not
    skip it and does not take it for the pad. *)
Definition reads_back (v : N) : bool :=
  let ch := b2a v in
  let x := N_of_ascii ch in
  negb ((127 <? x) || (x =? 13) || (x =? 10) || (x =? 32))
  && negb (Ascii.eqb ch BASE64_PAD)
  && match a2b ch with Some v' => v' =? v | None => false end.

(** The four characters of a group of three bytes, fed to the decoder one
    after the other, and the characters that end a short group. *)
Definition group_check (a b : N) : bool :=
  (N.shiftr a 2 <? 64)
  && (N.lor (N.shiftl (N.land a 3) 4) (N.shiftr b 4) <? 64)
  && (N.lor (N.shiftl (N.land a 15) 2) (N.shiftr b 6) <? 64)
  && (N.land a 63 <? 64)
  && (N.shiftl (N.land a 3) 4 <? 64)
  && (N.shiftl (N.land a 15) 2 <? 64)
  && same (shift_in (N.shiftr a 2) 0 0 0) (1, N.shiftr a 2, 6, None)
  && same (shift_in (N.lor (N.shiftl (N.land a 3) 4) (N.shiftr b 4))
             1 (N.shiftr a 2) 6)
          (2, N.shiftr b 4, 4, Some a)
  && same (shift_in (N.lor (N.shiftl (N.land a 15) 2) (N.shiftr b 6))
             2 (N.shiftr a 4) 4)
          (3, N.shiftr b 6, 2, Some a)
  && same (shift_in (N.land a 63) 3 (N.shiftr a 6) 2) (0, 0, 0, Some a)
  && same (shift_in (N.shiftl (N.land a 3) 4) 1 (N.shiftr a 2) 6)
          (2, 0, 4, Some a)
  && same (shift_in (N.shiftl (N.land a 15) 2) 2 (N.shiftr a 4) 4)
          (3, 0, 2, Some a).

End Base64.

(** ** Operations on decoded values that can raise *)

(** [k in j] *)
Definition py_in (k : string) (j : json) : result bool :=
  match j with
  | JObj d => Return (match dict_get k d with Some _ => true | None => false end)
  | JArr l => Return (existsb (fun x => eq_str x k) l)
  | JStr s => Return (contains k s)
  | _ => Raise TypeError
  end.

(** [j.get(k)] *)
Definition py_get (j : json) (k : string) : result json :=
  match j with
  | JObj d => Return (match dict_get k d with Some v => v | None => JNull end)
  | _ => Raise AttributeError
  end.

(** [j[k]] for a string [k] *)
Definition py_getitem (j : json) (k : string) : result json :=
  match j with
  | JObj d =>
      match dict_get k d with
      | Some v => Return v
      | None => Raise (KeyError k)
      end
  | _ => Raise TypeError
  end.

(** [j[k] = v] for a string [k]; gives the object after the assignment. *)
Definition py_setitem (j : json) (k : string) (v : json) : result json :=
  match j with
  | JObj d => Return (JObj (dict_set k v d))
  | _ => Raise TypeError
  end.

(** [base64.b64decode (j)] for a value out of a decoded reply: only a
    string of ASCII characters gets as far as the decoder. *)
Definition b64decode_value (j : json) : result string :=
  match j with
  | JStr s => if is_ascii s then Base64.b64decode s else Raise UnicodeEncodeError
  | _ => Raise TypeError
  end.

(** ** The methods of [SkydioClient] *)

Section Client.

Variable w : world.

(** ['{}'.format (j)] for a value [j] out of a reply: its [str], which a
    unicode string has only when it is ASCII. *)
Definition py_str (j : json) : result string :=
  match j with
  | JNull => Return "None"
  | JBool true => Return "True"
  | JBool false => Return "False"
  | JNum n => Return (string_of_Z n)
  | JStr s => if is_ascii s then Return s else Raise UnicodeEncodeError
  | _ => Return (repr w j)
  end.

(** [fmt_out] and [fmt_err] called with values out of a reply for
    arguments: formatting the arguments into [fmt] comes first, and raises
    when one of them cannot be formatted. *)
Fixpoint fmt_out (args : list json) : M unit :=
  match args with
  | [] => ret tt
  | j :: args' => lift (py_str j) ;;; fmt_out args'
  end.

(** [urllib2.urlopen (request, timeout=...)]: the request goes out, and
    the server's answer to it comes back or the call raises. *)
Definition do_urlopen (rq : request) : M response :=
  fun s =>
    let s' := mkState (self s) (sent s ++ [rq]) in
    match urlopen w (sent s) rq with
    | UrlFails f => (Raise (exn_of_failure f), s')
    | UrlResponse r => (Return r, s')
    end.

(** [json.loads (response.read ())] *)
Definition read_json (r : response) : result json :=
  match content r with
  | ReadFails f => Raise (exn_of_failure f)
  | NotJson => Raise ValueError
  | Json j => Return j
  end.

(** The request [request_json] builds from the fields of the client:
    the url, the headers, and the body when there is one.  Formatting the
    token and serialising the body can raise. *)
Definition build_request (c : client) (endpoint : string) (json_data : arg)
  (timeout : Z) : result request :=
  let url := baseurl c ++ "/api/" ++ endpoint in
  let headers := [("Accept", "application/json")] in
  match (if truthy (access_token c)
         then match py_str (access_token c) with
              | Return token =>
                  Return (dict_set "Authorization" ("Bearer " ++ token) headers)
              | Raise e => Raise e
              | OutOfFuel => OutOfFuel
              end
         else Return headers) with
  | Return headers =>
      match json_data with
      | Value JNull => Return (mkRequest url None headers timeout)
      | _ =>
          let headers := dict_set "Content-Type" "application/json" headers in
          if serialisable json_data
          then Return (mkRequest url (Some json_data) headers timeout)
          else Raise UnicodeDecodeError
      end
  | Raise e => Raise e
  | OutOfFuel => OutOfFuel
  end.

(** [request_json (self, endpoint, json_data=None, timeout=20)];
    [json_data] is [Value JNull] for None. *)
Definition request_json (endpoint : string) (json_data : arg) (timeout : Z)
  : M json :=
  c <- get_self ;;
  request <- lift (build_request c endpoint json_data timeout) ;;
  response <- do_urlopen request ;;
  let status_code := getcode response in
  let status_code_class := status_code / 100 in
  if (status_code_class =? 4) || (status_code_class =? 5) then
    raise (HTTPError status_code)
  else if negb (has_read response) then
    raise IOError
  else
    server_response <- lift (read_json response) ;;
    has_data <- lift (py_in "data" server_response) ;;
    if negb has_data then
      error <- lift (py_get server_response "error") ;;
      message <- lift (py_str error) ;;
      raise (RuntimeError ("No response data: " ++ message))
    else
      lift (py_getitem server_response "data").

(** The [rpc_request] of [send_custom_comms]. *)
Definition rpc_request (skill_key : string) (data : string)
  (no_response : bool) : arg :=
  Dict [("data", Bytes (Base64.b64encode data));
        ("skill_key", Bytes skill_key);
        ("no_response", Value (JBool no_response))].

(** [send_custom_comms (self, skill_key, data, no_response=False)] *)
Definition send_custom_comms (skill_key : string) (data : string)
  (no_response : bool) : M json :=
  try_except_Exception
    (request_json "custom_comms" (rpc_request skill_key data no_response) 20)
    (fun error => ret JNull)
    (fun rpc_response =>
       if truthy rpc_response then
         has_data <- lift (py_in "data" rpc_response) ;;
         if has_data then
           encoded <- lift (py_getitem rpc_response "data") ;;
           decoded <- lift (b64decode_value encoded) ;;
           lift (py_setitem rpc_response "data" (JStr decoded))
         else ret rpc_response
       else ret rpc_response).

(** The [args] of [update_pilot_status]. *)
Definition status_args (c : client) : dict arg :=
  let args :=
    [("wouldAcceptPilot", Value (JBool true));
     ("inForeground", Value (JBool true));
     ("mediaMode", Bytes "FLIGHT_CONTROL");
     ("takeoffType", Bytes "GROUND_TAKEOFF")] in
  if truthy (session_id c)
  then dict_set "sessionId" (Value (session_id c)) args
  else args.

(** [update_pilot_status (self)] *)
Definition update_pilot_status : M json :=
  c <- get_self ;;
  response <- request_json "status" (Dict (status_args c)) 20 ;;
  sid <- lift (py_getitem response "sessionId") ;;
  set_self (set_session_id sid) ;;;
  ret response.

(** [for x in l: body x] *)
Fixpoint for_each {A} (l : list A) (body : A -> M unit) : M unit :=
  match l with
  | [] => ret tt
  | x :: l' => body x ;;; for_each l' body
  end.

(** [disable_faults (self)].  [faults.items ()] gives the two entries of
    the dict in the order of its hash table, which for these two keys in
    CPython 2.7 is LOST_PHONE_COMMS_LONG before LOST_PHONE_COMMS_SHORT. *)
Definition disable_faults : M unit :=
  let faults := [("LOST_PHONE_COMMS_LONG", 3); ("LOST_PHONE_COMMS_SHORT", 2)] in
  for_each faults (fun '(_, fault_id) =>
    request_json ("set_fault_override/" ++ string_of_Z fault_id)
      (Dict [("override_on", Value (JBool true));
             ("fault_active", Value (JBool false))]) 20 ;;;
    ret tt).

(** The [while 1] of [takeoff], run for at most [fuel] iterations. *)
Fixpoint takeoff_loop (fuel : nat) : M unit :=
  match fuel with
  | O => out_of_fuel
  | S fuel' =>
      status <- update_pilot_status ;;
      phase <- lift (py_get status "flightPhase") ;;
      if negb (truthy phase) then takeoff_loop fuel'
      else
        fmt_out [phase] ;;;
        if eq_str phase "READY_FOR_GROUND_TAKEOFF" then
          request_json "async_command"
            (Dict [("command", Bytes "ground_takeoff")]) 20 ;;;
          takeoff_loop fuel'
        else if eq_str phase "FLYING" then ret tt
        else takeoff_loop fuel'
  end.

(** [takeoff (self)] *)
Definition takeoff (fuel : nat) : M unit :=
  c <- get_self ;;
  if negb (eq_str (access_level c) "PILOT") then ret tt
  else
    update_pilot_status ;;;
    disable_faults ;;;
    takeoff_loop fuel.

(** The [while phase == 'FLYING'] of [land], run for at most [fuel]
    iterations. *)
Fixpoint land_loop (fuel : nat) (phase : json) : M unit :=
  if eq_str phase "FLYING" then
    match fuel with
    | O => out_of_fuel
    | S fuel' =>
        request_json "async_command" (Dict [("command", Bytes "land")]) 20 ;;;
        status <- update_pilot_status ;;
        new_phase <- lift (py_get status "flightPhase") ;;
        if negb (truthy new_phase) then land_loop fuel' phase
        else land_loop fuel' new_phase
    end
  else ret tt.

(** [land (self)] *)
Definition land (fuel : nat) : M unit :=
  c <- get_self ;;
  if negb (eq_str (access_level c) "PILOT") then ret tt
  else land_loop fuel (JStr "FLYING").

(** [set_skill (self, skill_key)].  The skill key is a byte string, so
    formatting it into the message of [fmt_out] and into the endpoint
    cannot fail. *)
Definition set_skill (skill_key : string) : M unit :=
  c <- get_self ;;
  if negb (eq_str (access_level c) "PILOT") then ret tt
  else
    request_json ("set_skill/" ++ skill_key) (Dict [("args", Dict [])]) 20 ;;;
    ret tt.

(** The request of [_authenticate], with the credentials of the token file
    when one is named; a token file that does not exist ends the process. *)
Definition authentication_request (pilot : bool) (token_file : option string)
  : result arg :=
  let request :=
    [("client_id", Bytes (uuid4 w));
     ("requested_level", Value (JNum (if pilot then 8 else 4)));
     ("commandeer", Value (JBool true))] in
  match token_file with
  | None => Return (Dict request)
  | Some path =>
      if String.eqb path "" then Return (Dict request)
      else
        match filesystem w path with
        | NoEntry => Raise (SystemExit 1)
        | NotReadable => Raise IOError
        | Contents token =>
            Return (Dict (dict_set "credentials" (Bytes (strip token)) request))
        end
  end.

(** [_authenticate (self, pilot=False, token_file=None)] *)
Definition _authenticate (pilot : bool) (token_file : option string) : M unit :=
  request <- lift (authentication_request pilot token_file) ;;
  response <- request_json "authentication" request 20 ;;
  level <- lift (py_get response "accessLevel") ;;
  set_self (set_access_level level) ;;;
  if pilot && negb (eq_str level "PILOT") then raise (SystemExit 1)
  else
    token <- lift (py_get response "accessToken") ;;
    set_self (set_access_token token).

(** [SkydioClient (baseurl, pilot, token_file)]: how the constructor ends
    and the fields it leaves. *)
Definition __init__ (baseurl : string) (pilot : bool) (token_file : option string)
  : result unit * state :=
  _authenticate pilot token_file
    (mkState (mkClient baseurl JNull JNull JNull) []).

End Client.

(** ** Reading the list of requests *)

(** The request goes to [endpoint] of the vehicle at [base]. *)
Definition to_endpoint (base endpoint : string) (rq : request) : bool :=
  String.eqb (url rq) (base ++ "/api/" ++ endpoint).

Definition is_status_poll (base : string) (rq : request) : bool :=
  to_endpoint base "status" rq.

(** The request is the async command [cmd]. *)
Definition is_command (base cmd : string) (rq : request) : bool :=
  to_endpoint base "async_command" rq
  && match data rq with
     | Some (Dict d) =>
         match dict_get "command" d with
         | Some (Bytes c) => String.eqb c cmd
         | _ => false
         end
     | _ => false
     end.

Definition count (f : request -> bool) (l : list request) : nat :=
  List.length (filter f l).

(** The access token of the client can go into a header: there is none,
    or [str] of it exists. *)
Definition usable_token (c : client) : bool :=
  negb (truthy (access_token c))
  || match access_token c with
     | JStr token => is_ascii token
     | _ => true
     end.

(** A reply with status 200 whose body is the envelope [{"data": j}]. *)
Definition ok_reply (j : json) : urlopen_result :=
  UrlResponse (mkResponse 200 true (Json (JObj [("data", j)]))).

(** The server's answer is a status report with a session id and the
    flight phase [phase]. *)
Definition status_reply (r : urlopen_result) (phase : string) : Prop :=
  exists status,
    r = ok_reply (JObj status)
    /\ dict_get "sessionId" status <> None
    /\ dict_get "flightPhase" status = Some (JStr phase).


Section Landing.

Variable w : world.


End Landing.



(** The flight phases of the takeoff scenario, poll after poll. *)
Definition scenario_phases : list string :=
  ["READY_FOR_GROUND_TAKEOFF"; "READY_FOR_GROUND_TAKEOFF"; "FLYING"].

(** ** Worlds to run the client in *)

Definition mock_world (server : list request -> request -> urlopen_result)
  : world :=
  mkWorld server (fun _ => NoEntry) "123e4567-e89b-12d3-a456-426614174000"
    (fun _ => "<object>").

Definition vehicle : string := "http://192.168.10.1".

Definition fresh (base : string) : state :=
  mkState (mkClient base JNull JNull JNull) [].

Definition pilot : state :=
  mkState (mkClient vehicle (JStr "tok1") JNull (JStr "PILOT")) [].

(** A server that answers every request with the same reply. *)
Definition always (r : urlopen_result) : list request -> request -> urlopen_result :=
  fun _ _ => r.

(** A server that sends the custom-comms payload back as it came. *)
Definition echo_server : list request -> request -> urlopen_result :=
  fun _ rq =>
    match data rq with
    | Some (Dict d) =>
        match dict_get "data" d with
        | Some (Bytes v) => ok_reply (JObj [("data", JStr v)])
        | _ => ok_reply (JObj [])
        end
    | _ => ok_reply (JObj [])
    end.

(** A server whose status endpoint reports the flight phases of [phases]
    one poll after the other and that accepts everything else. *)
Definition phase_server (phases : list string)
  : list request -> request -> urlopen_result :=
  fun history rq =>
    if is_status_poll vehicle rq then
      match nth_error phases (count (is_status_poll vehicle) history) with
      | Some phase =>
          ok_reply (JObj [("sessionId", JStr "session-1");
                          ("flightPhase", JStr phase)])
      | None => UrlFails TimedOut
      end
    else ok_reply (JObj []).

(** A server whose status endpoint reports the flight phases of [phases]
    one poll after the other and then [last] for ever, and that accepts
    everything else. *)
Definition lasting_server (phases : list string) (last : string)
  : list request -> request -> urlopen_result :=
  fun history rq =>
    if is_status_poll vehicle rq then
      ok_reply (JObj [("sessionId", JStr "session-1");
                      ("flightPhase",
                       JStr (nth (count (is_status_poll vehicle) history)
                               phases last))])
    else ok_reply (JObj []).

(** * Properties *)

(** ** Running the monad *)

Ltac run :=
  unfold bind, ret, raise, lift, out_of_fuel, get_self, set_self,
    try_except_Exception in *; simpl in *.

Lemma eq_str_true (j : json) (t : string) :
  eq_str j t = true <-> j = JStr t.
Proof.
  destruct j; simpl; split; intro H; try discriminate.
  - apply String.eqb_eq in H. now subst.
  - injection H as ->. apply String.eqb_refl.
Qed.

Lemma eq_str_false (j : json) (t : string) :
  eq_str j t = false <-> j <> JStr t.
Proof.
  rewrite <- eq_str_true. destruct (eq_str j t); split; congruence.
Qed.

(** ** The embedding at work *)

Example b64encode_vectors :
  map Base64.b64encode ["" ; "f"; "fo"; "foo"; "foob"; "fooba"; "foobar"]
  = [""; "Zg=="; "Zm8="; "Zm9v"; "Zm9vYg=="; "Zm9vYmE="; "Zm9vYmFy"].
Proof. reflexivity. Qed.

Example b64decode_vectors :
  map Base64.b64decode ["Zg=="; "Zm9vYmE="; "Zm9v YmFy"; "Zg="; "Zg"; "Z"]
  = [Return "f"; Return "fooba"; Return "foobar";
     Raise TypeError; Raise TypeError; Raise TypeError].
Proof. reflexivity. Qed.

(** The server grants pilot access: the constructor keeps level and token. *)
Example authenticate_as_pilot :
  let w := mock_world
             (always (ok_reply (JObj [("accessLevel", JStr "PILOT");
                                      ("accessToken", JStr "tok1")]))) in
  exists rq,
    __init__ w vehicle true None
    = (Return tt,
       mkState (mkClient vehicle (JStr "tok1") JNull (JStr "PILOT")) [rq])
    /\ url rq = "http://192.168.10.1/api/authentication"
    /\ headers rq = [("Accept", "application/json");
                     ("Content-Type", "application/json")].
Proof. eexists. split; [reflexivity | split; reflexivity]. Qed.

(** A reply with status 500 makes [request_json] raise an HTTPError. *)
Example status_500 :
  fst (request_json
         (mock_world (always (UrlResponse (mkResponse 500 true NotJson))))
         "status" (Value JNull) 20 pilot)
  = Raise (HTTPError 500).
Proof. reflexivity. Qed.

(** ** [request_json] *)

Section RequestJson.

Variable w : world.
Variables (endpoint : string) (json_data : arg) (timeout : Z).

(** Building the request raises one of the two Unicode errors, or gives
    the request. *)
Lemma py_str_outcome (j : json) :
  match py_str w j with
  | Return _ => True
  | Raise e => e = UnicodeEncodeError
  | OutOfFuel => False
  end.
Proof.
  destruct j as [| [|] | n | t | l | o]; simpl; auto.
  now destruct (is_ascii t).
Qed.

Lemma build_request_outcome (c : client) :
  match build_request w c endpoint json_data timeout with
  | Return _ => True
  | Raise e => e = UnicodeEncodeError \/ e = UnicodeDecodeError
  | OutOfFuel => False
  end.
Proof.
  unfold build_request.
  assert (Hbody : forall headers,
             match (match json_data with
                    | Value JNull => Return (mkRequest (baseurl c ++ "/api/" ++ endpoint) None headers timeout)
                    | _ =>
                        if serialisable json_data
                        then Return (mkRequest (baseurl c ++ "/api/" ++ endpoint)
                                       (Some json_data)
                                       (dict_set "Content-Type" "application/json" headers)
                                       timeout)
                        else Raise UnicodeDecodeError
                    end) with
             | Return _ => True
             | Raise e => e = UnicodeEncodeError \/ e = UnicodeDecodeError
             | OutOfFuel => False
             end).
  { intros headers. destruct json_data as [[] | b | d]; auto;
      match goal with |- context [if ?x then _ else _] => destruct x end; auto. }
  destruct (truthy (access_token c)); [| apply Hbody].
  pose proof (py_str_outcome (access_token c)) as Hs.
  destruct (py_str w (access_token c)); [apply Hbody | auto | contradiction].
Qed.

(** When the request cannot be built, the call raises what building it
    raised and nothing is sent. *)
Lemma request_json_unbuilt (s : state) (e : exn) :
  build_request w (self s) endpoint json_data timeout = Raise e ->
  request_json w endpoint json_data timeout s = (Raise e, s).
Proof.
  intros H. unfold request_json, bind, get_self, lift. now rewrite H.
Qed.

(** Whatever comes of it, a call sends the request it built and nothing
    else, and leaves the object as it was. *)
Lemma request_json_state (s : state) (rq : request) :
  build_request w (self s) endpoint json_data timeout = Return rq ->
  snd (request_json w endpoint json_data timeout s)
  = mkState (self s) (sent s ++ [rq]).
Proof.
  intros Hb. unfold request_json, do_urlopen. run. rewrite Hb.
  destruct (urlopen w _ _) as [f | r]; simpl; [reflexivity |].
  destruct ((getcode r / 100 =? 4) || (getcode r / 100 =? 5)); [reflexivity |].
  destruct (has_read r); simpl; [| reflexivity].
  destruct (read_json r) as [j | e |]; simpl; try reflexivity.
  destruct (py_in "data" j) as [[|] | e |]; simpl; try reflexivity.
  destruct (py_get j "error") as [v | |]; simpl; try reflexivity.
  now destruct (py_str w v).
Qed.

Lemma request_json_self (s : state) :
  self (snd (request_json w endpoint json_data timeout s)) = self s.
Proof.
  pose proof (build_request_outcome (self s)) as Ho.
  destruct (build_request w (self s) endpoint json_data timeout) as [rq | e |] eqn:E.
  - now rewrite (request_json_state s rq E).
  - now rewrite (request_json_unbuilt s e E).
  - contradiction.
Qed.

(** A call that returns built its request, got a reply whose body is a
    dict, and returns the value at its key [data]. *)
Lemma request_json_returns (s : state) (v : json) :
  fst (request_json w endpoint json_data timeout s) = Return v ->
  exists rq r o,
    build_request w (self s) endpoint json_data timeout = Return rq
    /\ urlopen w (sent s) rq = UrlResponse r
    /\ content r = Json (JObj o)
    /\ dict_get "data" o = Some v.
Proof.
  unfold request_json, do_urlopen. run.
  destruct (build_request w (self s) endpoint json_data timeout) as [rq | e |];
    try discriminate.
  destruct (urlopen w _ _) as [f | r] eqn:Hopen; simpl; [discriminate |].
  destruct ((getcode r / 100 =? 4) || (getcode r / 100 =? 5)); [discriminate |].
  destruct (has_read r); simpl; [| discriminate].
  unfold read_json.
  destruct (content r) as [f | | j] eqn:Hbody; simpl; try discriminate.
  destruct j as [| b | n | t | l | o]; simpl; try discriminate.
  - destruct (contains "data" t); simpl; discriminate.
  - destruct (existsb _ l); simpl; discriminate.
  - destruct (dict_get "data" o) as [v' |] eqn:E; simpl.
    + intros [= ->]. exists rq, r, o. auto.
    + destruct (dict_get "error" o) as [err |]; simpl;
        [destruct (py_str w err) |]; discriminate.
Qed.

(** A call never runs out of fuel and never raises [SystemExit]. *)
Lemma request_json_raises (s : state) :
  match fst (request_json w endpoint json_data timeout s) with
  | Return _ => True
  | Raise e => is_Exception e = true
  | OutOfFuel => False
  end.
Proof.
  pose proof (build_request_outcome (self s)) as Ho.
  unfold request_json, do_urlopen. run.
  destruct (build_request w (self s) endpoint json_data timeout) as [rq | e |];
    [| destruct Ho; subst e; reflexivity | contradiction].
  destruct (urlopen w _ _) as [f | r]; simpl; [now destruct f |].
  destruct ((getcode r / 100 =? 4) || (getcode r / 100 =? 5)); [reflexivity |].
  destruct (has_read r); simpl; [| reflexivity].
  unfold read_json. destruct (content r) as [f | | j]; simpl;
    [now destruct f | reflexivity |].
  destruct j as [| b | n | t | l | o]; simpl; try reflexivity.
  - destruct (contains "data" t); reflexivity.
  - destruct (existsb _ l); reflexivity.
  - destruct (dict_get "data" o); simpl; [reflexivity |].
    destruct (dict_get "error" o) as [[| [|] | n | t | l | o'] |]; simpl;
      try reflexivity.
    now destruct (is_ascii t).
Qed.

(** The reply [{"data": j}] with status 200 makes the call return [j]. *)
Lemma request_json_ok (s : state) (rq : request) (j : json) :
  build_request w (self s) endpoint json_data timeout = Return rq ->
  urlopen w (sent s) rq = ok_reply j ->
  request_json w endpoint json_data timeout s
  = (Return j, mkState (self s) (sent s ++ [rq])).
Proof.
  intros Hb H. unfold request_json, do_urlopen. run.
  rewrite Hb, H. reflexivity.
Qed.

End RequestJson.

(** What a request that was built looks like. *)
Lemma build_request_shape
  (w : world) (c : client) (endpoint : string) (json_data : arg) (t : Z)
  (rq : request) :
  build_request w c endpoint json_data t = Return rq ->
  url rq = baseurl c ++ "/api/" ++ endpoint
  /\ timeout rq = t
  /\ data rq = match json_data with
               | Value JNull => None
               | _ => Some json_data
               end
  /\ dict_get "Accept" (headers rq) = Some "application/json"
  /\ dict_get "Authorization" (headers rq)
     = (if truthy (access_token c)
        then match py_str w (access_token c) with
             | Return token => Some ("Bearer " ++ token)
             | _ => None
             end
        else None)
  /\ dict_get "Content-Type" (headers rq)
     = match json_data with
       | Value JNull => None
       | _ => Some "application/json"
       end.
Proof.
  unfold build_request.
  destruct (truthy (access_token c));
    [destruct (py_str w (access_token c)); try discriminate |];
    (destruct json_data as [[] | b | d];
     try (destruct (serialisable _); [| discriminate]);
     intros [= <-]; repeat split).
Qed.

(** A client whose token can go into a header builds the request for
    every body that can be serialised. *)
Lemma build_request_ok
  (w : world) (c : client) (endpoint : string) (json_data : arg) (t : Z) :
  usable_token c = true ->
  serialisable json_data = true ->
  exists rq, build_request w c endpoint json_data t = Return rq.
Proof.
  unfold usable_token, build_request. intros Hu Hs.
  destruct (truthy (access_token c)); simpl in Hu.
  - destruct (access_token c) as [| [|] | n | tok | l | o]; simpl;
      try rewrite Hu; rewrite Hs;
      (destruct json_data as [[] | b | d]; eauto).
  - rewrite Hs. destruct json_data as [[] | b | d]; eauto.
Qed.

(** C9: for every endpoint, body and timeout, [request_json] leaves the
    fields of the client as they were: [baseurl], [access_token],
    [session_id] and [access_level] are the same after the call, whether it
    returns or raises. *)
Theorem request_json_keeps_fields
  (w : world) (endpoint : string) (json_data : arg) (timeout : Z) (s : state) :
  let s' := snd (request_json w endpoint json_data timeout s) in
  baseurl (self s') = baseurl (self s)
  /\ access_token (self s') = access_token (self s)
  /\ session_id (self s') = session_id (self s)
  /\ access_level (self s') = access_level (self s).
Proof.
  simpl. rewrite request_json_self. auto.
Qed.

(** C4, as amended: with no access token (None) or an empty one the
    request has no [Authorization] header; with a token that is a
    non-empty ASCII string it has the header [Bearer <token>]; a token
    that is a string with a character outside ASCII makes [request_json]
    raise a UnicodeEncodeError before any request is made; and every
    request that is made, the one [request_json] built, has
    [Accept: application/json]. *)
Theorem request_json_bearer_header
  (w : world) (endpoint : string) (json_data : arg) (t : Z) (s : state) :
  (forall rq,
      build_request w (self s) endpoint json_data t = Return rq ->
      sent (snd (request_json w endpoint json_data t s)) = (sent s ++ [rq])%list
      /\ dict_get "Accept" (headers rq) = Some "application/json")
  /\ (forall rq,
        build_request w (self s) endpoint json_data t = Return rq ->
        access_token (self s) = JNull \/ access_token (self s) = JStr "" ->
        dict_get "Authorization" (headers rq) = None)
  /\ (forall rq token,
        build_request w (self s) endpoint json_data t = Return rq ->
        access_token (self s) = JStr token ->
        token <> "" ->
        dict_get "Authorization" (headers rq) = Some ("Bearer " ++ token))
  /\ (forall token,
        access_token (self s) = JStr token ->
        is_ascii token = false ->
        request_json w endpoint json_data t s = (Raise UnicodeEncodeError, s)).
Proof.
  split; [| split; [| split]].
  - intros rq Hb. rewrite (request_json_state _ _ _ _ _ _ Hb).
    split; [reflexivity |]. now apply build_request_shape in Hb.
  - intros rq Hb Htok. apply build_request_shape in Hb.
    destruct Hb as (_ & _ & _ & _ & Ha & _). rewrite Ha.
    destruct Htok as [-> | ->]; reflexivity.
  - intros rq token Hb Htok Hne. pose proof Hb as Hb'.
    apply build_request_shape in Hb. destruct Hb as (_ & _ & _ & _ & Ha & _).
    rewrite Ha, Htok. apply String.eqb_neq in Hne. cbn [truthy py_str].
    rewrite Hne. cbn [negb].
    destruct (is_ascii token) eqn:E; [reflexivity |].
    unfold build_request in Hb'. rewrite Htok in Hb'. cbn [truthy py_str] in Hb'.
    rewrite Hne, E in Hb'. discriminate.
  - intros token Htok Hna. apply request_json_unbuilt.
    unfold build_request. rewrite Htok. cbn [truthy py_str]. rewrite Hna.
    destruct (String.eqb token "") eqn:E; [| reflexivity].
    apply String.eqb_eq in E. subst token. discriminate.
Qed.

Lemma request_json_bearer_header_witness :
  exists rq,
    sent (snd (request_json (mock_world (always (ok_reply JNull)))
                 "status" (Value JNull) 20 pilot))
    = [rq]
    /\ dict_get "Authorization" (headers rq) = Some "Bearer tok1".
Proof.
  destruct (request_json_bearer_header (mock_world (always (ok_reply JNull)))
              "status" (Value JNull) 20 pilot) as (H1 & _ & H3 & _).
  eexists. split.
  - apply (H1 _ eq_refl).
  - apply (H3 _ "tok1" eq_refl eq_refl). discriminate.
Defined.

(** C4, as the claim has it, fails: a client whose access token is set to
    the empty string sends its request without an [Authorization]
    header. *)
Lemma request_json_empty_token_no_header :
  let s := mkState (mkClient vehicle (JStr "") JNull JNull) [] in
  access_token (self s) <> JNull
  /\ exists rq,
       sent (snd (request_json (mock_world (always (ok_reply JNull)))
                    "status" (Value JNull) 20 s))
       = [rq]
       /\ dict_get "Authorization" (headers rq) = None
       /\ dict_get "Accept" (headers rq) = Some "application/json".
Proof.
  simpl. split; [discriminate |]. eexists. repeat split.
Qed.

(** C2: when the body of the reply decodes to JSON whose top level is not
    a dict with a key [data], [request_json] raises, whatever the status
    code of the reply; and when [request_json] returns, what it returns is
    the value at the key [data] of the decoded body. *)
Theorem request_json_envelope
  (w : world) (endpoint : string) (json_data : arg) (timeout : Z) (s : state) :
  (forall rq r j,
      build_request w (self s) endpoint json_data timeout = Return rq ->
      urlopen w (sent s) rq = UrlResponse r ->
      content r = Json j ->
      (forall o, j = JObj o -> dict_get "data" o = None) ->
      exists e, fst (request_json w endpoint json_data timeout s) = Raise e)
  /\ (forall v,
        fst (request_json w endpoint json_data timeout s) = Return v ->
        exists rq r o,
          build_request w (self s) endpoint json_data timeout = Return rq
          /\ urlopen w (sent s) rq = UrlResponse r
          /\ content r = Json (JObj o)
          /\ dict_get "data" o = Some v).
Proof.
  split; [| apply request_json_returns].
  intros rq r j Hb Hopen Hbody Hnodata.
  pose proof (request_json_raises w endpoint json_data timeout s) as Hr.
  destruct (fst (request_json w endpoint json_data timeout s)) as [v | e |] eqn:E.
  - apply request_json_returns in E.
    destruct E as (rq' & r' & o & H0 & H1 & H2 & H3).
    rewrite Hb in H0. injection H0 as <-.
    rewrite Hopen in H1. injection H1 as <-. rewrite Hbody in H2.
    injection H2 as ->. rewrite (Hnodata o eq_refl) in H3. discriminate.
  - now exists e.
  - contradiction.
Qed.

Lemma request_json_envelope_witness :
  exists e,
    fst (request_json
           (mock_world
              (always (UrlResponse
                         (mkResponse 200 true
                            (Json (JObj [("error", JStr "no such skill")]))))))
           "status" (Value JNull) 20 pilot) = Raise e.
Proof.
  eapply (proj1 (request_json_envelope _ "status" (Value JNull) 20 pilot)).
  - reflexivity.
  - reflexivity.
  - reflexivity.
  - intros o [= <-]. reflexivity.
Defined.

(** ** [send_custom_comms] *)

(** C1, as amended: whenever the [request_json] call inside
    [send_custom_comms] raises, for whatever reason, [send_custom_comms]
    returns None; and when [send_custom_comms] does raise, the request had
    returned a non-empty payload, the exception coming from its decoding. *)
Theorem send_custom_comms_swallows_request_failure
  (w : world) (skill_key data : string) (no_response : bool) (s : state) :
  let request := request_json w "custom_comms"
                   (rpc_request skill_key data no_response) 20 in
  (forall e s',
      request s = (Raise e, s') ->
      send_custom_comms w skill_key data no_response s = (Return JNull, s'))
  /\ (forall e,
        fst (send_custom_comms w skill_key data no_response s) = Raise e ->
        exists payload s',
          request s = (Return payload, s') /\ truthy payload = true).
Proof.
  simpl.
  pose proof (request_json_raises w "custom_comms"
                (rpc_request skill_key data no_response) 20 s) as Hr.
  unfold send_custom_comms, try_except_Exception.
  destruct (request_json w "custom_comms" _ 20 s) as [[p | e | ] s1];
    simpl in Hr; [| | contradiction].
  - split; [discriminate |].
    intros e He. exists p, s1. split; [reflexivity |].
    destruct (truthy p); [reflexivity | discriminate].
  - rewrite Hr. split.
    + intros e' s' [= <- <-]. reflexivity.
    + discriminate.
Qed.

Lemma send_custom_comms_swallows_request_failure_witness :
  fst (send_custom_comms (mock_world (always (UrlFails (ErrorStatus 500))))
         "samples.com_link.ComLink" "ping" false pilot)
  = Return JNull.
Proof.
  rewrite (proj1 (send_custom_comms_swallows_request_failure
                    (mock_world (always (UrlFails (ErrorStatus 500))))
                    "samples.com_link.ComLink" "ping" false pilot)
             (HTTPError 500)
             (snd (request_json (mock_world (always (UrlFails (ErrorStatus 500))))
                     "custom_comms"
                     (rpc_request "samples.com_link.ComLink" "ping" false) 20
                     pilot))).
  - reflexivity.
  - vm_compute. reflexivity.
Defined.

(** C1, as the claim has it, fails: a reply whose [data] field is not
    base64 text makes [send_custom_comms] raise a TypeError to its caller. *)
Lemma send_custom_comms_can_raise :
  fst (send_custom_comms
         (mock_world (always (ok_reply (JObj [("data", JStr "hello")]))))
         "samples.com_link.ComLink" "ping" false pilot)
  = Raise TypeError.
Proof. reflexivity. Qed.

(** C10: when the request succeeded and its payload is empty or None, or
    is a dict without a key [data], [send_custom_comms] returns the payload
    as it is; so a reply whose payload is null and a request that failed
    both come back as None, with the same state. *)
Theorem send_custom_comms_passes_payload
  (w : world) (skill_key data : string) (no_response : bool) (s : state) :
  let body := rpc_request skill_key data no_response in
  (forall payload s',
      request_json w "custom_comms" body 20 s = (Return payload, s') ->
      truthy payload = false
      \/ (exists o, payload = JObj o /\ dict_get "data" o = None) ->
      send_custom_comms w skill_key data no_response s = (Return payload, s'))
  /\ (forall rq,
        build_request w (self s) "custom_comms" body 20 = Return rq ->
        urlopen w (sent s) rq = ok_reply JNull ->
        send_custom_comms w skill_key data no_response s
        = (Return JNull, mkState (self s) (sent s ++ [rq])))
  /\ (forall rq f,
        build_request w (self s) "custom_comms" body 20 = Return rq ->
        urlopen w (sent s) rq = UrlFails f ->
        send_custom_comms w skill_key data no_response s
        = (Return JNull, mkState (self s) (sent s ++ [rq]))).
Proof.
  cbv zeta. split; [| split].
  - intros p s' Hreq Hp. unfold send_custom_comms, try_except_Exception.
    rewrite Hreq. destruct (truthy p) eqn:Ht; [| reflexivity].
    destruct Hp as [Hp | (o & -> & Ho)]; [discriminate |].
    run. rewrite Ho. reflexivity.
  - intros rq Hb Hopen. unfold send_custom_comms, try_except_Exception.
    rewrite (request_json_ok _ _ _ _ _ _ _ Hb Hopen). reflexivity.
  - intros rq f Hb Hopen. unfold send_custom_comms, try_except_Exception.
    unfold request_json, do_urlopen, bind, get_self, lift.
    rewrite Hb, Hopen. now destruct f.
Qed.

Lemma send_custom_comms_passes_payload_witness :
  fst (send_custom_comms
         (mock_world (always (ok_reply (JObj [("status", JStr "queued")]))))
         "samples.com_link.ComLink" "ping" true pilot)
  = Return (JObj [("status", JStr "queued")]).
Proof.
  rewrite (proj1 (send_custom_comms_passes_payload
                    (mock_world
                       (always (ok_reply (JObj [("status", JStr "queued")]))))
                    "samples.com_link.ComLink" "ping" true pilot)
             (JObj [("status", JStr "queued")])
             (snd (request_json
                     (mock_world
                        (always (ok_reply (JObj [("status", JStr "queued")]))))
                     "custom_comms"
                     (rpc_request "samples.com_link.ComLink" "ping" true) 20
                     pilot))).
  - reflexivity.
  - vm_compute. reflexivity.
  - right. exists [("status", JStr "queued")]. split; reflexivity.
Defined.

(** ** [takeoff] without pilot access *)

(** C7: called on a client whose access level is not PILOT, [takeoff]
    returns at once: no request is made and nothing changes. *)
Theorem takeoff_needs_pilot (w : world) (fuel : nat) (s : state) :
  access_level (self s) <> JStr "PILOT" ->
  takeoff w fuel s = (Return tt, s).
Proof.
  intros H. apply eq_str_false in H. unfold takeoff. run.
  rewrite H. reflexivity.
Qed.

Lemma takeoff_needs_pilot_witness :
  takeoff (mock_world (always (ok_reply (JObj [])))) 5 (fresh vehicle)
  = (Return tt, fresh vehicle).
Proof.
  apply takeoff_needs_pilot. simpl. discriminate.
Defined.

(** ** [_authenticate] *)

(** C3: when pilot access is asked for and the reply to the authentication
    request carries an access level other than PILOT, [_authenticate] ends
    in [sys.exit (1)]: the authentication request is the only one made, and
    the access token of the client is what it was, the one in the reply
    never being stored. *)
Theorem authenticate_pilot_refused
  (w : world) (token_file : option string) (s s1 : state)
  (request : arg) (reply : dict json) :
  authentication_request w true token_file = Return request ->
  request_json w "authentication" request 20 s = (Return (JObj reply), s1) ->
  dict_get "accessLevel" reply <> Some (JStr "PILOT") ->
  exists s2 rq,
    _authenticate w true token_file s = (Raise (SystemExit 1), s2)
    /\ build_request w (self s) "authentication" request 20 = Return rq
    /\ sent s2 = (sent s ++ [rq])%list
    /\ access_token (self s2) = access_token (self s).
Proof.
  intros Hrq Hcall Hlevel.
  assert (Hv : fst (request_json w "authentication" request 20 s)
               = Return (JObj reply)) by now rewrite Hcall.
  apply request_json_returns in Hv. destruct Hv as (rq & _ & _ & Hb & _).
  pose proof (request_json_state w "authentication" request 20 s rq Hb) as Hs.
  rewrite Hcall in Hs. simpl in Hs. subst s1.
  unfold _authenticate. run. rewrite Hrq, Hcall. simpl.
  destruct (dict_get "accessLevel" reply) as [level |] eqn:E; simpl.
  - assert (Hne : eq_str level "PILOT" = false).
    { apply eq_str_false. congruence. }
    rewrite Hne. simpl. eexists. exists rq. split; [reflexivity |]. simpl. auto.
  - eexists. exists rq. split; [reflexivity |]. simpl. auto.
Qed.

Lemma authenticate_pilot_refused_witness :
  exists s2,
    __init__ (mock_world
                (always (ok_reply (JObj [("accessLevel", JStr "PHONE");
                                         ("accessToken", JStr "tok1")]))))
      vehicle true None
    = (Raise (SystemExit 1), s2)
    /\ List.length (sent s2) = 1%nat
    /\ access_token (self s2) = JNull.
Proof.
  destruct (authenticate_pilot_refused
              (mock_world
                 (always (ok_reply (JObj [("accessLevel", JStr "PHONE");
                                          ("accessToken", JStr "tok1")]))))
              None (fresh vehicle) _ _ _ eq_refl eq_refl)
    as (s2 & rq & H1 & _ & H2 & H3).
  - simpl. discriminate.
  - exists s2. split; [exact H1 |]. split; [| exact H3].
    rewrite H2. reflexivity.
Defined.

(** ** Base64: decoding what was encoded *)

Module Base64Facts.
Import Base64.
Local Open Scope N_scope.

Lemma same_eq x y : same x y = true -> x = y.
Proof.
  destruct x as [[[q1 c1] b1] o1], y as [[[q2 c2] b2] o2]. simpl.
  rewrite !andb_true_iff, !N.eqb_eq. intros [[[-> ->] ->] H].
  destruct o1, o2; try discriminate; [| reflexivity].
  apply N.eqb_eq in H. now subst.
Qed.

(** A property checked on every number below [n] holds below [n]. *)
Lemma below (P : N -> bool) (n : nat) :
  forallb P (map N.of_nat (seq 0 n)) = true ->
  forall x, x < N.of_nat n -> P x = true.
Proof.
  intros H x Hx. rewrite forallb_forall in H. apply H.
  apply in_map_iff. exists (N.to_nat x). split.
  - apply N2Nat.id.
  - apply in_seq. lia.
Qed.

Lemma below2 (P : N -> N -> bool) (n : nat) :
  forallb (fun x => forallb (P x) (map N.of_nat (seq 0 n)))
    (map N.of_nat (seq 0 n)) = true ->
  forall x y, x < N.of_nat n -> y < N.of_nat n -> P x y = true.
Proof.
  intros H x y Hx Hy.
  apply (below (P x) n); [| exact Hy].
  apply (below (fun x => forallb (P x) (map N.of_nat (seq 0 n))) n H x Hx).
Qed.

(** The character of a value below 64 is read by the decoder as that
    value. *)
Lemma b2a_reads_back (v : N) : v < 64 -> reads_back v = true.
Proof. apply (below reads_back 64). vm_compute. reflexivity. Qed.

Lemma a2b_loop_sextet (v : N) (rest : string) (quad_pos leftchar leftbits : N) :
  v < 64 ->
  a2b_loop (String (b2a v) rest) quad_pos leftchar leftbits
  = match shift_in v quad_pos leftchar leftbits with
    | (q, c, b, Some byte) =>
        let (left, out) := a2b_loop rest q c b in
        (left, String (ascii_of_N byte) out)
    | (q, c, b, None) => a2b_loop rest q c b
    end.
Proof.
  intros Hv. pose proof (b2a_reads_back v Hv) as H. unfold reads_back in H.
  apply andb_true_iff in H. destruct H as [H H3].
  apply andb_true_iff in H. destruct H as [H1 H2].
  apply negb_true_iff in H1, H2.
  cbn [a2b_loop]. cbv zeta. rewrite H1, H2.
  destruct (a2b (b2a v)) as [v' |]; [| discriminate].
  apply N.eqb_eq in H3. subst v'. unfold shift_in.
  destruct (8 <=? leftbits + 6); reflexivity.
Qed.

Lemma group_checked (a b : N) : a < 256 -> b < 256 -> group_check a b = true.
Proof. apply (below2 group_check 256). vm_compute. reflexivity. Qed.

Lemma group_facts (a b : N) :
  a < 256 -> b < 256 ->
  (N.shiftr a 2 < 64
   /\ N.lor (N.shiftl (N.land a 3) 4) (N.shiftr b 4) < 64
   /\ N.lor (N.shiftl (N.land a 15) 2) (N.shiftr b 6) < 64
   /\ N.land a 63 < 64
   /\ N.shiftl (N.land a 3) 4 < 64
   /\ N.shiftl (N.land a 15) 2 < 64)
  /\ shift_in (N.shiftr a 2) 0 0 0 = (1, N.shiftr a 2, 6, None)
  /\ shift_in (N.lor (N.shiftl (N.land a 3) 4) (N.shiftr b 4))
       1 (N.shiftr a 2) 6
     = (2, N.shiftr b 4, 4, Some a)
  /\ shift_in (N.lor (N.shiftl (N.land a 15) 2) (N.shiftr b 6))
       2 (N.shiftr a 4) 4
     = (3, N.shiftr b 6, 2, Some a)
  /\ shift_in (N.land a 63) 3 (N.shiftr a 6) 2 = (0, 0, 0, Some a)
  /\ shift_in (N.shiftl (N.land a 3) 4) 1 (N.shiftr a 2) 6 = (2, 0, 4, Some a)
  /\ shift_in (N.shiftl (N.land a 15) 2) 2 (N.shiftr a 4) 4 = (3, 0, 2, Some a).
Proof.
  intros Ha Hb. pose proof (group_checked a b Ha Hb) as H.
  unfold group_check in H. rewrite !andb_true_iff, !N.ltb_lt in H.
  destruct H as [[[[[[[[[[[H1 H2] H3] H4] H5] H6] H7] H8] H9] H10] H11] H12].
  repeat split; auto using same_eq.
Qed.

Lemma byte_bound (c : ascii) : N_of_ascii c < 256.
Proof. apply N_ascii_bounded. Qed.

(** A full group: three bytes come out and the decoder is back where it
    started. *)
Lemma a2b_loop_group (c1 c2 c3 : ascii) (rest : string) :
  a2b_loop (b64encode (String c1 (String c2 (String c3 rest)))) 0 0 0
  = let (left, out) := a2b_loop (b64encode rest) 0 0 0 in
    (left, String c1 (String c2 (String c3 out))).
Proof.
  pose proof (group_facts _ _ (byte_bound c1) (byte_bound c2))
    as ((B1 & B2 & _) & F1 & F2 & _).
  pose proof (group_facts _ _ (byte_bound c2) (byte_bound c3))
    as ((_ & _ & B3 & _) & _ & _ & F3 & _).
  pose proof (group_facts _ _ (byte_bound c3) (byte_bound c3))
    as ((_ & _ & _ & B4 & _) & _ & _ & _ & F4 & _).
  cbn [b64encode]. cbv zeta.
  rewrite (a2b_loop_sextet _ _ _ _ _ B1), F1.
  rewrite (a2b_loop_sextet _ _ _ _ _ B2), F2.
  rewrite (a2b_loop_sextet _ _ _ _ _ B3), F3.
  rewrite (a2b_loop_sextet _ _ _ _ _ B4), F4.
  destruct (a2b_loop (b64encode rest) 0 0 0) as [left out].
  rewrite !ascii_N_embedding. reflexivity.
Qed.

(** A last group of one byte and a last group of two. *)
Lemma a2b_loop_one (c1 : ascii) :
  a2b_loop (b64encode (String c1 EmptyString)) 0 0 0
  = (0, String c1 EmptyString).
Proof.
  pose proof (group_facts _ _ (byte_bound c1) (byte_bound c1))
    as ((B1 & _ & _ & _ & B2 & _) & F1 & _ & _ & _ & F2 & _).
  cbn [b64encode]. cbv zeta.
  rewrite (a2b_loop_sextet _ _ _ _ _ B1), F1.
  rewrite (a2b_loop_sextet _ _ _ _ _ B2), F2.
  rewrite ascii_N_embedding. reflexivity.
Qed.

Lemma a2b_loop_two (c1 c2 : ascii) :
  a2b_loop (b64encode (String c1 (String c2 EmptyString))) 0 0 0
  = (0, String c1 (String c2 EmptyString)).
Proof.
  pose proof (group_facts _ _ (byte_bound c1) (byte_bound c2))
    as ((B1 & B2 & _) & F1 & F2 & _).
  pose proof (group_facts _ _ (byte_bound c2) (byte_bound c2))
    as ((_ & _ & _ & _ & _ & B3) & _ & _ & _ & _ & _ & F3).
  cbn [b64encode]. cbv zeta.
  rewrite (a2b_loop_sextet _ _ _ _ _ B1), F1.
  rewrite (a2b_loop_sextet _ _ _ _ _ B2), F2.
  rewrite (a2b_loop_sextet _ _ _ _ _ B3), F3.
  rewrite !ascii_N_embedding. reflexivity.
Qed.

Lemma a2b_loop_b64encode (s : string) : a2b_loop (b64encode s) 0 0 0 = (0, s).
Proof.
  assert (H : forall n s, (String.length s <= n)%nat ->
                          a2b_loop (b64encode s) 0 0 0 = (0, s)).
  { induction n as [| n IH]; intros t Ht.
    - destruct t; [reflexivity | simpl in Ht; lia].
    - destruct t as [| c1 [| c2 [| c3 rest]]].
      + reflexivity.
      + apply a2b_loop_one.
      + apply a2b_loop_two.
      + rewrite a2b_loop_group, IH; [reflexivity |]. simpl in Ht. lia. }
  apply (H (String.length s)). lia.
Qed.

(** Decoding an encoded byte string gives the byte string back. *)
Lemma b64decode_b64encode (s : string) : b64decode (b64encode s) = Return s.
Proof. unfold b64decode. rewrite a2b_loop_b64encode. reflexivity. Qed.

Lemma b2a_is_ascii (v : N) : (N_of_ascii (b2a v) <=? 127) = true.
Proof.
  destruct (N.lt_ge_cases v 64) as [H | H].
  - apply (below (fun v => N_of_ascii (b2a v) <=? 127) 64); [| exact H].
    vm_compute. reflexivity.
  - unfold b2a.
    replace (N.to_nat v) with (64 + (N.to_nat v - 64))%nat by lia.
    unfold table_b2a_base64. cbn [Nat.add String.get].
    now destruct (N.to_nat v - 64)%nat.
Qed.

Lemma b64encode_is_ascii (s : string) : is_ascii (b64encode s) = true.
Proof.
  assert (H : forall n s, (String.length s <= n)%nat ->
                          is_ascii (b64encode s) = true).
  { unfold is_ascii. induction n as [| n IH]; intros t Ht.
    - destruct t; [reflexivity | simpl in Ht; lia].
    - destruct t as [| c1 [| c2 [| c3 rest]]];
        cbn [b64encode list_ascii_of_string forallb]; cbv zeta;
        cbn [list_ascii_of_string forallb];
        rewrite ?b2a_is_ascii; try reflexivity.
      rewrite IH; [reflexivity |]. simpl in Ht. lia. }
  apply (H (String.length s)). lia.
Qed.

End Base64Facts.

(** ** Byte strings that can be serialised *)

Lemma ascii_valid_utf8_from (s : string) :
  forall fuel, (String.length s <= fuel)%nat ->
               is_ascii s = true -> valid_utf8_from fuel s = true.
Proof.
  unfold is_ascii. induction s as [| c s IH]; intros fuel Hlen Ha.
  - now destruct fuel.
  - destruct fuel as [| fuel]; [simpl in Hlen; lia |].
    simpl in Ha. apply andb_true_iff in Ha. destruct Ha as [Hc Hs].
    cbn [valid_utf8_from]. cbv zeta. rewrite Hc.
    apply IH; [simpl in Hlen; lia | exact Hs].
Qed.

Lemma ascii_valid_utf8 (s : string) : is_ascii s = true -> valid_utf8 s = true.
Proof. intros H. now apply ascii_valid_utf8_from. Qed.

(** The body of [send_custom_comms] can be serialised exactly when the
    skill key is UTF-8: the payload, being base64, always is. *)
Lemma rpc_request_serialisable (skill_key data : string) (no_response : bool) :
  serialisable (rpc_request skill_key data no_response) = valid_utf8 skill_key.
Proof.
  unfold rpc_request. cbn [serialisable].
  rewrite (ascii_valid_utf8 _ (Base64Facts.b64encode_is_ascii data)).
  change (valid_utf8 "data") with true.
  change (valid_utf8 "skill_key") with true.
  change (valid_utf8 "no_response") with true.
  cbn [andb]. now rewrite !andb_true_r.
Qed.

(** [send_custom_comms] sends the request it built and leaves the object
    as it was, however it ends; when the request cannot be built it returns
    None and nothing is sent. *)
Lemma send_custom_comms_state
  (w : world) (skill_key data : string) (no_response : bool) (s : state)
  (rq : request) :
  build_request w (self s) "custom_comms"
    (rpc_request skill_key data no_response) 20 = Return rq ->
  snd (send_custom_comms w skill_key data no_response s)
  = mkState (self s) (sent s ++ [rq]).
Proof.
  intros Hb.
  pose proof (request_json_state w "custom_comms"
                (rpc_request skill_key data no_response) 20 s rq Hb) as Hs.
  unfold send_custom_comms, try_except_Exception.
  destruct (request_json w "custom_comms" _ 20 s) as [[p | e |] s1];
    simpl in Hs; subst s1.
  - destruct (truthy p); [| reflexivity]. run.
    destruct (py_in "data" p) as [[|] | |]; simpl; try reflexivity.
    destruct (py_getitem p "data") as [enc | |]; simpl; try reflexivity.
    destruct (b64decode_value enc); reflexivity.
  - now destruct (is_Exception e).
  - reflexivity.
Qed.

Lemma send_custom_comms_unbuilt
  (w : world) (skill_key data : string) (no_response : bool) (s : state)
  (e : exn) :
  build_request w (self s) "custom_comms"
    (rpc_request skill_key data no_response) 20 = Raise e ->
  send_custom_comms w skill_key data no_response s = (Return JNull, s).
Proof.
  intros Hb.
  pose proof (build_request_outcome w "custom_comms"
                (rpc_request skill_key data no_response) 20 (self s)) as Ho.
  rewrite Hb in Ho.
  unfold send_custom_comms, try_except_Exception.
  rewrite (request_json_unbuilt _ _ _ _ _ _ Hb).
  destruct Ho; subst e; reflexivity.
Qed.

(** C6: the request of [send_custom_comms], which is made whenever the
    token of the client can go into a header and the skill key is UTF-8,
    carries the base64 encoding of the bytes it was given in its [data]
    field; a reply whose [data] field is the base64 encoding of some bytes
    is returned with those bytes in its [data] field; and decoding the
    encoding of a byte string gives the byte string back. *)
Theorem send_custom_comms_round_trip
  (w : world) (skill_key b : string) (no_response : bool) (s : state) :
  (usable_token (self s) = true ->
   valid_utf8 skill_key = true ->
   exists rq body,
     sent (snd (send_custom_comms w skill_key b no_response s))
     = (sent s ++ [rq])%list
     /\ data rq = Some (Dict body)
     /\ dict_get "data" body = Some (Bytes (Base64.b64encode b)))
  /\ (forall reply b' s',
        request_json w "custom_comms" (rpc_request skill_key b no_response) 20 s
        = (Return (JObj reply), s') ->
        dict_get "data" reply = Some (JStr (Base64.b64encode b')) ->
        send_custom_comms w skill_key b no_response s
        = (Return (JObj (dict_set "data" (JStr b') reply)), s'))
  /\ (forall b', Base64.b64decode (Base64.b64encode b') = Return b').
Proof.
  split; [| split].
  - intros Hu Hk.
    destruct (build_request_ok w (self s) "custom_comms"
                (rpc_request skill_key b no_response) 20 Hu) as (rq & Hb).
    { now rewrite rpc_request_serialisable. }
    rewrite (send_custom_comms_state _ _ _ _ _ _ Hb).
    apply build_request_shape in Hb. destruct Hb as (_ & _ & Hd & _).
    exists rq. eexists. split; [reflexivity |]. split; [exact Hd |].
    reflexivity.
  - intros reply b' s' Hreq Hdata.
    unfold send_custom_comms, try_except_Exception. rewrite Hreq.
    assert (Ht : truthy (JObj reply) = true).
    { destruct reply; [discriminate | reflexivity]. }
    rewrite Ht. unfold bind, lift, py_in, py_getitem. rewrite Hdata.
    unfold b64decode_value.
    rewrite Base64Facts.b64encode_is_ascii, Base64Facts.b64decode_b64encode.
    reflexivity.
  - apply Base64Facts.b64decode_b64encode.
Qed.

Lemma send_custom_comms_round_trip_witness :
  fst (send_custom_comms (mock_world echo_server)
         "samples.com_link.ComLink" "hello" false pilot)
  = Return (JObj [("data", JStr "hello")]).
Proof.
  rewrite (proj1 (proj2 (send_custom_comms_round_trip
                           (mock_world echo_server)
                           "samples.com_link.ComLink" "hello" false pilot))
             [("data", JStr (Base64.b64encode "hello"))] "hello"
             (snd (request_json (mock_world echo_server) "custom_comms"
                     (rpc_request "samples.com_link.ComLink" "hello" false)
                     20 pilot))).
  - reflexivity.
  - vm_compute. reflexivity.
  - reflexivity.
Defined.

(** ** Recognising requests *)

Lemma eqb_append_l (b x y : string) :
  String.eqb (b ++ x) (b ++ y) = String.eqb x y.
Proof.
  induction b as [| c b IH]; simpl; [reflexivity |].
  now rewrite Ascii.eqb_refl.
Qed.

Lemma to_endpoint_built
  (w : world) (c : client) (e e' : string) (json_data : arg) (t : Z)
  (rq : request) :
  build_request w c e' json_data t = Return rq ->
  to_endpoint (baseurl c) e rq = String.eqb e' e.
Proof.
  intros Hb. apply build_request_shape in Hb. destruct Hb as (Hu & _).
  unfold to_endpoint. rewrite Hu, eqb_append_l.
  apply (eqb_append_l "/api/").
Qed.

Lemma is_command_built
  (w : world) (c : client) (e : string) (d : dict arg) (t : Z) (cmd : string)
  (rq : request) :
  build_request w c e (Dict d) t = Return rq ->
  is_command (baseurl c) cmd rq
  = String.eqb e "async_command"
    && match dict_get "command" d with
       | Some (Bytes c) => String.eqb c cmd
       | _ => false
       end.
Proof.
  intros Hb. unfold is_command. rewrite (to_endpoint_built _ _ _ _ _ _ _ Hb).
  apply build_request_shape in Hb. destruct Hb as (_ & _ & Hd & _).
  now rewrite Hd.
Qed.

Lemma count_app (f : request -> bool) (l1 l2 : list request) :
  count f (l1 ++ l2) = (count f l1 + count f l2)%nat.
Proof. unfold count. now rewrite filter_app, length_app. Qed.

Lemma count_one (f : request -> bool) (rq : request) :
  count f [rq] = if f rq then 1%nat else 0%nat.
Proof. unfold count. simpl. now destruct (f rq). Qed.

(** ** [update_pilot_status] *)

(** The body of a status poll can always be serialised. *)
Lemma status_args_serialisable (c : client) :
  serialisable (Dict (status_args c)) = true.
Proof. unfold status_args. now destruct (truthy (session_id c)). Qed.

Lemma usable_token_set_session_id (sid : json) (c : client) :
  usable_token (set_session_id sid c) = usable_token c.
Proof. reflexivity. Qed.

(** A status report with a session id makes [update_pilot_status] return
    the report and keep the session id. *)
Lemma update_pilot_status_ok
  (w : world) (s : state) (rq : request) (status : dict json) (sid : json) :
  build_request w (self s) "status" (Dict (status_args (self s))) 20 = Return rq ->
  urlopen w (sent s) rq = ok_reply (JObj status) ->
  dict_get "sessionId" status = Some sid ->
  update_pilot_status w s
  = (Return (JObj status),
     mkState (set_session_id sid (self s)) (sent s ++ [rq])).
Proof.
  intros Hb Hopen Hsid. unfold update_pilot_status, bind, get_self.
  rewrite (request_json_ok _ _ _ _ _ _ _ Hb Hopen).
  unfold lift, py_getitem. rewrite Hsid. reflexivity.
Qed.

(** ** A vehicle that follows a script *)

Lemma fmt_out_ascii (w : world) (phase : string) (s : state) :
  is_ascii phase = true -> fmt_out w [JStr phase] s = (Return tt, s).
Proof.
  intros H. cbn [fmt_out]. unfold bind, lift, ret. cbn [py_str].
  now rewrite H.
Qed.

Section ScriptedVehicle.

Variable w : world.
Variable s0 : state.

(** The flight phase the status endpoint reports at its poll number [k]
    (from 0), for the polls it answers. *)
Variable script : nat -> option string.

Let base := baseurl (self s0).
Let polls := count (is_status_poll base).
Let commands (cmd : string) := count (is_command base cmd).

Hypothesis token : usable_token (self s0) = true.

Hypothesis status_endpoint :
  forall history rq phase,
    is_status_poll base rq = true ->
    script (polls history) = Some phase ->
    status_reply (urlopen w (sent s0 ++ history) rq) phase.

Hypothesis other_endpoints :
  forall history rq,
    is_status_poll base rq = false ->
    exists j, urlopen w (sent s0 ++ history) rq = ok_reply j.

(** The client is at the vehicle of [s0], holds the token of [s0], and has
    made the requests [h] since [s0]. *)
Let at_ (s : state) (h : list request) : Prop :=
  baseurl (self s) = base
  /\ access_token (self s) = access_token (self s0)
  /\ sent s = (sent s0 ++ h)%list.

Lemma at_start : at_ s0 [].
Proof. repeat split. now rewrite app_nil_r. Qed.

Lemma at_usable (s : state) (h : list request) :
  at_ s h -> usable_token (self s) = true.
Proof. intros (_ & Ht & _). unfold usable_token. now rewrite Ht. Qed.

Lemma scripted_poll (s : state) (h : list request) (phase : string) :
  at_ s h ->
  script (polls h) = Some phase ->
  exists status s' rq,
    update_pilot_status w s = (Return (JObj status), s')
    /\ dict_get "flightPhase" status = Some (JStr phase)
    /\ at_ s' (h ++ [rq])
    /\ url rq = base ++ "/api/status"
    /\ polls [rq] = 1%nat
    /\ forall cmd, commands cmd [rq] = 0%nat.
Proof.
  intros Hat Hphase. pose proof (at_usable s h Hat) as Hu.
  destruct Hat as (Hb & Ht & Hs).
  destruct (build_request_ok w (self s) "status" (Dict (status_args (self s))) 20
              Hu (status_args_serialisable _)) as (rq & Hrq).
  assert (Hpoll : is_status_poll base rq = true).
  { unfold is_status_poll. rewrite <- Hb.
    now rewrite (to_endpoint_built _ _ _ _ _ _ _ Hrq). }
  destruct (status_endpoint h rq phase Hpoll Hphase)
    as (status & Hopen & Hsid & Hph).
  destruct (dict_get "sessionId" status) as [sid |] eqn:E; [| congruence].
  rewrite <- Hs in Hopen.
  exists status, (mkState (set_session_id sid (self s)) (sent s ++ [rq])), rq.
  split; [now apply update_pilot_status_ok |].
  split; [exact Hph |].
  split; [repeat split; simpl; auto; rewrite Hs; now rewrite app_assoc |].
  split; [apply build_request_shape in Hrq; now rewrite (proj1 Hrq), Hb |].
  unfold polls, commands. split; [now rewrite count_one, Hpoll |].
  intros cmd. rewrite count_one. rewrite <- Hb.
  now rewrite (is_command_built _ _ _ _ _ _ _ Hrq).
Qed.

Lemma scripted_request
  (s : state) (h : list request) (e : string) (d : dict arg) :
  at_ s h ->
  String.eqb e "status" = false ->
  serialisable (Dict d) = true ->
  exists j s' rq,
    request_json w e (Dict d) 20 s = (Return j, s')
    /\ at_ s' (h ++ [rq])
    /\ url rq = base ++ "/api/" ++ e
    /\ polls [rq] = 0%nat
    /\ forall cmd,
         commands cmd [rq]
         = if String.eqb e "async_command"
              && match dict_get "command" d with
                 | Some (Bytes c) => String.eqb c cmd
                 | _ => false
                 end
           then 1%nat else 0%nat.
Proof.
  intros Hat He Hd. pose proof (at_usable s h Hat) as Hu.
  destruct Hat as (Hb & Ht & Hs).
  destruct (build_request_ok w (self s) e (Dict d) 20 Hu Hd) as (rq & Hrq).
  assert (Hpoll : is_status_poll base rq = false).
  { unfold is_status_poll. rewrite <- Hb.
    now rewrite (to_endpoint_built _ _ _ _ _ _ _ Hrq). }
  destruct (other_endpoints h rq Hpoll) as (j & Hopen).
  rewrite <- Hs in Hopen.
  exists j, (mkState (self s) (sent s ++ [rq])), rq.
  split; [now apply request_json_ok |].
  split; [repeat split; simpl; auto; rewrite Hs; now rewrite app_assoc |].
  split; [apply build_request_shape in Hrq; now rewrite (proj1 Hrq), Hb |].
  unfold polls, commands. split; [now rewrite count_one, Hpoll |].
  intros cmd. rewrite count_one. rewrite <- Hb.
  now rewrite (is_command_built _ _ _ _ _ _ _ Hrq).
Qed.

Lemma polls_app (h h' : list request) (n : nat) :
  polls h' = n -> polls (h ++ h') = (polls h + n)%nat.
Proof. intros <-. apply count_app. Qed.

(** What a pilot's [takeoff] does before its loop: the first poll and
    the two fault overrides. *)
Lemma takeoff_prefix (first : string) :
  access_level (self s0) = JStr "PILOT" ->
  script 0%nat = Some first ->
  exists s3 h3,
    (forall fuel, takeoff w fuel s0 = takeoff_loop w fuel s3)
    /\ at_ s3 h3
    /\ polls h3 = 1%nat
    /\ (forall cmd, commands cmd h3 = 0%nat)
    /\ map url h3
       = map (fun e => base ++ "/api/" ++ e)
           ["status"; "set_fault_override/3"; "set_fault_override/2"].
Proof.
  intros Hpilot Hfirst.
  destruct (scripted_poll s0 [] first at_start Hfirst)
    as (st1 & s1 & r1 & E1 & _ & A1 & U1 & C1 & K1).
  destruct (scripted_request s1 _ ("set_fault_override/" ++ string_of_Z 3)
              [("override_on", Value (JBool true));
               ("fault_active", Value (JBool false))] A1 eq_refl eq_refl)
    as (j2 & s2 & r2 & E2 & A2 & U2 & C2 & K2).
  destruct (scripted_request s2 _ ("set_fault_override/" ++ string_of_Z 2)
              [("override_on", Value (JBool true));
               ("fault_active", Value (JBool false))] A2 eq_refl eq_refl)
    as (j3 & s3 & r3 & E3 & A3 & U3 & C3 & K3).
  exists s3, [r1; r2; r3]. split; [| split; [exact A3 | split; [| split]]].
  - intros fuel. unfold takeoff, bind, get_self. rewrite Hpilot. cbn [eq_str].
    rewrite String.eqb_refl. cbn [negb]. rewrite E1.
    unfold disable_faults, for_each, bind, ret. rewrite E2, E3. reflexivity.
  - unfold polls in *. change [r1; r2; r3] with ([r1] ++ [r2] ++ [r3])%list.
    now rewrite !count_app, C1, C2, C3.
  - intros cmd. unfold commands in *.
    change [r1; r2; r3] with ([r1] ++ [r2] ++ [r3])%list.
    now rewrite !count_app, K1, K2, K3.
  - cbn [map]. now rewrite U1, U2, U3.
Qed.

(** The loop of [takeoff] from the poll after poll [i]: the phases of
    [rest] are reported, all ASCII and none of them FLYING, and then
    FLYING. *)
Lemma takeoff_loop_scripted (rest : list string) :
  forall (s : state) (h : list request) (i fuel : nat),
    at_ s h ->
    polls h = S i ->
    (forall j phase, nth_error rest j = Some phase ->
                     script (S (i + j)) = Some phase) ->
    script (S (i + List.length rest)) = Some "FLYING" ->
    ~ In "FLYING" rest ->
    (forall phase, In phase rest -> is_ascii phase = true) ->
    (List.length rest < fuel)%nat ->
    exists s' h',
      takeoff_loop w fuel s = (Return tt, s')
      /\ at_ s' (h ++ h')
      /\ polls h' = S (List.length rest)
      /\ commands "ground_takeoff" h'
         = List.length
             (filter (fun p => String.eqb p "READY_FOR_GROUND_TAKEOFF") rest)
      /\ commands "land" h' = 0%nat.
Proof.
  induction rest as [| p rest IH];
    intros s h i fuel Hat Hpolls Hmid Hlast Hnot Hascii Hfuel;
    (destruct fuel as [| fuel]; [simpl in Hfuel; lia |]).
  - simpl in Hlast. rewrite Nat.add_0_r, <- Hpolls in Hlast.
    destruct (scripted_poll s h "FLYING" Hat Hlast)
      as (st & s1 & rq & E & P & A & _ & C & K).
    exists s1, [rq]. split; [| auto].
    cbn [takeoff_loop]. unfold bind, lift. rewrite E. cbn [py_get]. rewrite P.
    reflexivity.
  - assert (Hp : script (polls h) = Some p).
    { rewrite Hpolls, <- (Nat.add_0_r i). now apply Hmid. }
    assert (Hnf : String.eqb p "FLYING" = false).
    { apply String.eqb_neq. intros ->. apply Hnot. now left. }
    assert (Hpa : is_ascii p = true) by (apply Hascii; now left).
    destruct (scripted_poll s h p Hat Hp) as (st & s1 & rq & E & P & A & _ & C & K).
    assert (Hmid' : forall j phase, nth_error rest j = Some phase ->
                                    script (S (S i + j)) = Some phase).
    { intros j phase Hj. rewrite <- (Hmid (S j) phase Hj). f_equal. lia. }
    assert (Hlast' : script (S (S i + List.length rest)) = Some "FLYING").
    { rewrite <- Hlast. f_equal. simpl. lia. }
    assert (Hnot' : ~ In "FLYING" rest) by (intros H; apply Hnot; now right).
    assert (Hascii' : forall phase, In phase rest -> is_ascii phase = true).
    { intros phase H. apply Hascii. now right. }
    assert (Hfuel' : (List.length rest < fuel)%nat) by (simpl in Hfuel; lia).
    cbn [takeoff_loop]. unfold bind at 1 2. unfold lift at 1. rewrite E.
    cbn [py_get]. rewrite P. cbn [truthy eq_str filter].
    destruct (String.eqb p "") eqn:Hempty; cbn [negb].
    + apply String.eqb_eq in Hempty. subst p. cbn [String.eqb].
      destruct (IH s1 (h ++ [rq])%list (S i) fuel A)
        as (s' & h' & E' & A' & C' & T' & L'); auto.
      { rewrite (polls_app h [rq] 1 C). lia. }
      exists s', (rq :: h'). split; [exact E' |].
      split; [now rewrite <- app_assoc in A' |].
      unfold polls, commands in *.
      change (rq :: h') with ([rq] ++ h')%list. rewrite !count_app, C, C', T', L'.
      rewrite !K. simpl. auto.
    + unfold bind at 1. rewrite (fmt_out_ascii w p s1 Hpa). rewrite Hnf.
      destruct (String.eqb p "READY_FOR_GROUND_TAKEOFF") eqn:Hready.
      * destruct (scripted_request s1 (h ++ [rq])%list "async_command"
                    [("command", Bytes "ground_takeoff")] A eq_refl eq_refl)
          as (j2 & s2 & rq2 & E2 & A2 & _ & C2 & K2).
        destruct (IH s2 ((h ++ [rq]) ++ [rq2])%list (S i) fuel A2)
          as (s' & h' & E' & A' & C' & T' & L'); auto.
        { rewrite (polls_app (h ++ [rq])%list [rq2] 0 C2).
          rewrite (polls_app h [rq] 1 C). lia. }
        unfold bind. rewrite E2.
        exists s', (rq :: rq2 :: h'). split; [exact E' |].
        split; [now rewrite <- !app_assoc in A' |].
        unfold polls, commands in *.
        change (rq :: rq2 :: h') with ([rq] ++ [rq2] ++ h')%list.
        rewrite !count_app, C, C2, C', T', L', !K, !K2. simpl. auto.
      * destruct (IH s1 (h ++ [rq])%list (S i) fuel A)
          as (s' & h' & E' & A' & C' & T' & L'); auto.
        { rewrite (polls_app h [rq] 1 C). lia. }
        exists s', (rq :: h'). split; [exact E' |].
        split; [now rewrite <- app_assoc in A' |].
        unfold polls, commands in *.
        change (rq :: h') with ([rq] ++ h')%list. rewrite !count_app, C, C', T', L'.
        rewrite !K. simpl. auto.
Qed.

(** X18: [takeoff] is not one-shot.  Against a vehicle that reports the
    phases [first], then those of [middle] (ASCII text, none of them
    FLYING), then FLYING, the [takeoff] of a pilot whose token can go into
    a header returns after polling once for each of them, having sent one
    [ground_takeoff] command for each READY_FOR_GROUND_TAKEOFF in [middle]
    and no [land] command.  The report to the poll before the loop,
    [first], is not looked at. *)
Theorem takeoff_scripted (first : string) (middle : list string) (fuel : nat) :
  access_level (self s0) = JStr "PILOT" ->
  script 0%nat = Some first ->
  (forall j phase, nth_error middle j = Some phase -> script (S j) = Some phase) ->
  script (S (List.length middle)) = Some "FLYING" ->
  ~ In "FLYING" middle ->
  (forall phase, In phase middle -> is_ascii phase = true) ->
  (List.length middle < fuel)%nat ->
  exists s' made,
    takeoff w fuel s0 = (Return tt, s')
    /\ sent s' = (sent s0 ++ made)%list
    /\ polls made = (List.length middle + 2)%nat
    /\ commands "ground_takeoff" made
       = List.length
           (filter (fun p => String.eqb p "READY_FOR_GROUND_TAKEOFF") middle)
    /\ commands "land" made = 0%nat.
Proof.
  intros Hpilot Hfirst Hmid Hlast Hnot Hascii Hfuel.
  destruct (takeoff_prefix first Hpilot Hfirst)
    as (s3 & h3 & Heq & A3 & C3 & K3 & _).
  destruct (takeoff_loop_scripted middle s3 h3 0%nat fuel A3 C3)
    as (s' & h' & E' & A' & C' & T' & L'); auto.
  exists s', (h3 ++ h')%list. split; [| split; [apply A' |]].
  - rewrite Heq. exact E'.
  - unfold polls, commands in *.
    rewrite !count_app, C3, C', T', L', !K3. repeat split; lia.
Qed.

Lemma takeoff_loop_never_flying (fuel : nat) :
  (forall k, exists phase,
      script k = Some phase /\ phase <> "FLYING" /\ is_ascii phase = true) ->
  forall (s : state) (h : list request),
    at_ s h -> fst (takeoff_loop w fuel s) = OutOfFuel.
Proof.
  intros Hscript. induction fuel as [| fuel IH]; intros s h Hat; [reflexivity |].
  destruct (Hscript (polls h)) as (p & Hp & Hne & Hpa).
  destruct (scripted_poll s h p Hat Hp) as (st & s1 & rq & E & P & A & _).
  cbn [takeoff_loop]. unfold bind at 1 2. unfold lift at 1. rewrite E.
  cbn [py_get]. rewrite P. cbn [truthy eq_str].
  destruct (String.eqb p ""); cbn [negb]; [now apply (IH s1 (h ++ [rq])%list) |].
  unfold bind at 1. rewrite (fmt_out_ascii w p s1 Hpa).
  destruct (String.eqb p "READY_FOR_GROUND_TAKEOFF").
  - destruct (scripted_request s1 (h ++ [rq])%list "async_command"
                [("command", Bytes "ground_takeoff")] A eq_refl eq_refl)
      as (j2 & s2 & rq2 & E2 & A2 & _).
    unfold bind. rewrite E2. now apply (IH s2 ((h ++ [rq]) ++ [rq2])%list).
  - apply String.eqb_neq in Hne. rewrite Hne.
    now apply (IH s1 (h ++ [rq])%list).
Qed.

(** X19: [takeoff] has no time limit.  When every poll is answered with a
    phase that is ASCII text and none reports FLYING, the [takeoff] of a
    pilot whose token can go into a header is still polling after any
    number of turns. *)
Theorem takeoff_never_flying (fuel : nat) :
  access_level (self s0) = JStr "PILOT" ->
  (forall k, exists phase,
      script k = Some phase /\ phase <> "FLYING" /\ is_ascii phase = true) ->
  fst (takeoff w fuel s0) = OutOfFuel.
Proof.
  intros Hpilot Hscript.
  destruct (Hscript 0%nat) as (p & Hp & _).
  destruct (takeoff_prefix p Hpilot Hp) as (s3 & h3 & Heq & A3 & _).
  rewrite Heq. now apply (takeoff_loop_never_flying fuel Hscript s3 h3).
Qed.

(** X21: a flight phase that is not ASCII text ends [takeoff].  When the
    first poll of the loop reports such a phase, [takeoff] raises a
    UnicodeEncodeError out of [fmt_out], after its two polls and the two
    fault overrides and without a [ground_takeoff] command. *)
Theorem takeoff_phase_not_ascii (first phase : string) (fuel : nat) :
  access_level (self s0) = JStr "PILOT" ->
  script 0%nat = Some first ->
  script 1%nat = Some phase ->
  is_ascii phase = false ->
  (0 < fuel)%nat ->
  exists s' made,
    takeoff w fuel s0 = (Raise UnicodeEncodeError, s')
    /\ sent s' = (sent s0 ++ made)%list
    /\ map url made
       = map (fun e => base ++ "/api/" ++ e)
           ["status"; "set_fault_override/3"; "set_fault_override/2"; "status"]
    /\ commands "ground_takeoff" made = 0%nat.
Proof.
  intros Hpilot Hfirst Hphase Hna Hfuel.
  destruct fuel as [| fuel]; [lia |].
  destruct (takeoff_prefix first Hpilot Hfirst)
    as (s3 & h3 & Heq & A3 & C3 & K3 & U3).
  rewrite <- C3 in Hphase.
  destruct (scripted_poll s3 h3 phase A3 Hphase)
    as (st & s4 & rq & E & P & A & U & C & K).
  exists s4, (h3 ++ [rq])%list. split; [| split; [apply A | split]].
  - rewrite Heq. cbn [takeoff_loop]. unfold bind at 1 2. unfold lift at 1.
    rewrite E. cbn [py_get]. rewrite P. cbn [truthy].
    assert (Hne : String.eqb phase "" = false).
    { destruct phase; [discriminate | reflexivity]. }
    rewrite Hne. cbn [negb fmt_out]. unfold bind, lift. cbn [py_str].
    rewrite Hna. reflexivity.
  - rewrite map_app, U3. cbn [map]. now rewrite U.
  - unfold commands in *. now rewrite count_app, K3, K.
Qed.

(** The loop of [land] from poll [i]: [n] reports of FLYING or of no
    phase, then the report [last]. *)
Lemma land_loop_scripted (last : string) (n : nat) :
  last <> "" -> last <> "FLYING" ->
  forall (s : state) (h : list request) (i fuel : nat),
    at_ s h ->
    polls h = i ->
    (forall j, (j < n)%nat ->
               script (i + j)%nat = Some "FLYING" \/ script (i + j)%nat = Some "") ->
    script (i + n)%nat = Some last ->
    (n < fuel)%nat ->
    exists s' h',
      land_loop w fuel (JStr "FLYING") s = (Return tt, s')
      /\ at_ s' (h ++ h')
      /\ polls h' = S n
      /\ commands "land" h' = S n
      /\ commands "ground_takeoff" h' = 0%nat.
Proof.
  intros Hne Hnf. apply String.eqb_neq in Hne, Hnf.
  induction n as [| n IH]; intros s h i fuel Hat Hpolls Hfly Hlast Hfuel;
    (destruct fuel as [| fuel]; [lia |]);
    destruct (scripted_request s h "async_command" [("command", Bytes "land")]
                Hat eq_refl eq_refl)
      as (j1 & s1 & rq1 & E1 & A1 & _ & C1 & K1);
    assert (Hp1 : polls (h ++ [rq1]) = i)
      by (rewrite (polls_app h [rq1] 0 C1); lia).
  - rewrite Nat.add_0_r, <- Hp1 in Hlast.
    destruct (scripted_poll s1 _ last A1 Hlast)
      as (st & s2 & rq2 & E2 & P2 & A2 & _ & C2 & K2).
    exists s2, [rq1; rq2]. split; [| split; [now rewrite <- app_assoc in A2 |]].
    + cbn [land_loop eq_str]. rewrite String.eqb_refl.
      unfold bind, lift. rewrite E1, E2. cbn [py_get]. rewrite P2.
      cbn [truthy]. rewrite Hne. cbn [negb].
      destruct fuel; cbn [land_loop eq_str]; rewrite Hnf; reflexivity.
    + unfold polls, commands in *.
      change [rq1; rq2] with ([rq1] ++ [rq2])%list.
      rewrite !count_app, C1, C2, !K1, !K2. simpl. auto.
  - assert (Hphase : exists p, script (polls (h ++ [rq1])) = Some p
                               /\ (p = "FLYING" \/ p = "")).
    { rewrite Hp1, <- (Nat.add_0_r i).
      destruct (Hfly 0%nat ltac:(lia)) as [H | H]; rewrite H; eauto. }
    destruct Hphase as (p & Hp & Hcase).
    destruct (scripted_poll s1 _ p A1 Hp)
      as (st & s2 & rq2 & E2 & P2 & A2 & _ & C2 & K2).
    destruct (IH s2 ((h ++ [rq1]) ++ [rq2])%list (S i) fuel A2)
      as (s' & h' & E' & A' & C' & L' & T').
    { rewrite (polls_app (h ++ [rq1])%list [rq2] 1 C2). lia. }
    { intros j Hj. replace (S i + j)%nat with (i + S j)%nat by lia.
      apply Hfly. lia. }
    { replace (S i + n)%nat with (i + S n)%nat by lia. exact Hlast. }
    { lia. }
    exists s', (rq1 :: rq2 :: h'). split; [| split].
    + cbn [land_loop eq_str]. rewrite String.eqb_refl.
      unfold bind, lift. rewrite E1, E2. cbn [py_get]. rewrite P2.
      destruct Hcase as [-> | ->]; exact E'.
    + now rewrite <- !app_assoc in A'.
    + unfold polls, commands in *.
      change (rq1 :: rq2 :: h') with ([rq1] ++ [rq2] ++ h')%list.
      rewrite !count_app, C1, C2, C', L', T', !K1, !K2. simpl. auto.
Qed.

(** The loop of [land] while the vehicle reports FLYING or no phase: it
    uses up its fuel. *)
Lemma land_loop_flying (fuel : nat) :
  forall (s : state) (h : list request) (i : nat),
    at_ s h ->
    polls h = i ->
    (forall j, (j < fuel)%nat ->
               script (i + j)%nat = Some "FLYING" \/ script (i + j)%nat = Some "") ->
    fst (land_loop w fuel (JStr "FLYING") s) = OutOfFuel.
Proof.
  induction fuel as [| fuel IH]; intros s h i Hat Hpolls Hfly; [reflexivity |].
  destruct (scripted_request s h "async_command" [("command", Bytes "land")]
              Hat eq_refl eq_refl)
    as (j1 & s1 & rq1 & E1 & A1 & _ & C1 & K1).
  assert (Hp1 : polls (h ++ [rq1]) = i)
    by (rewrite (polls_app h [rq1] 0 C1); lia).
  assert (Hphase : exists p, script (polls (h ++ [rq1])) = Some p
                             /\ (p = "FLYING" \/ p = "")).
  { rewrite Hp1, <- (Nat.add_0_r i).
    destruct (Hfly 0%nat ltac:(lia)) as [H | H]; rewrite H; eauto. }
  destruct Hphase as (p & Hp & Hcase).
  destruct (scripted_poll s1 _ p A1 Hp)
    as (st & s2 & rq2 & E2 & P2 & A2 & _ & C2 & K2).
  cbn [land_loop eq_str]. rewrite String.eqb_refl.
  unfold bind, lift. rewrite E1, E2. cbn [py_get]. rewrite P2.
  assert (Hgo : fst (land_loop w fuel (JStr "FLYING") s2) = OutOfFuel).
  { apply (IH s2 ((h ++ [rq1]) ++ [rq2])%list (S i) A2).
    - rewrite (polls_app (h ++ [rq1])%list [rq2] 1 C2). lia.
    - intros j Hj. replace (S i + j)%nat with (i + S j)%nat by lia.
      apply Hfly. lia. }
  destruct Hcase as [-> | ->]; exact Hgo.
Qed.

(** X20: [land] sends a land command for every poll.  Against a vehicle
    that reports FLYING or no phase [n] times and then the phase [last],
    the [land] of a pilot whose token can go into a header returns after
    [n + 1] land commands and [n + 1] polls, and has sent no
    [ground_takeoff] command. *)
Theorem land_scripted (last : string) (n fuel : nat) :
  access_level (self s0) = JStr "PILOT" ->
  last <> "" -> last <> "FLYING" ->
  (forall j, (j < n)%nat -> script j = Some "FLYING" \/ script j = Some "") ->
  script n = Some last ->
  (n < fuel)%nat ->
  exists s' made,
    land w fuel s0 = (Return tt, s')
    /\ sent s' = (sent s0 ++ made)%list
    /\ polls made = S n
    /\ commands "land" made = S n
    /\ commands "ground_takeoff" made = 0%nat.
Proof.
  intros Hpilot Hne Hnf Hfly Hlast Hfuel.
  destruct (land_loop_scripted last n Hne Hnf s0 [] 0%nat fuel at_start eq_refl
              Hfly Hlast Hfuel) as (s' & h' & E' & A' & R).
  exists s', h'. split; [| split; [apply A' | exact R]].
  unfold land, bind, get_self. rewrite Hpilot. exact E'.
Qed.

End ScriptedVehicle.

(** ** [takeoff] against a server that reports READY, READY, FLYING *)

Section TakeoffScenario.

Variable w : world.
Variable s0 : state.

Let base := baseurl (self s0).
Let polls := count (is_status_poll base).
Let takeoffs := count (is_command base "ground_takeoff").

(** The token of the client can go into a header. *)
Hypothesis token : usable_token (self s0) = true.

(** The status endpoint reports the phases of the scenario one poll after
    the other, and every other endpoint accepts what it is sent. *)
Hypothesis status_endpoint :
  forall history rq phase,
    is_status_poll base rq = true ->
    nth_error scenario_phases (polls history) = Some phase ->
    status_reply (urlopen w (sent s0 ++ history) rq) phase.

Hypothesis other_endpoints :
  forall history rq,
    is_status_poll base rq = false ->
    exists j, urlopen w (sent s0 ++ history) rq = ok_reply j.

(** C5: against a status endpoint that reports READY_FOR_GROUND_TAKEOFF,
    READY_FOR_GROUND_TAKEOFF and FLYING on its first three polls, [takeoff]
    of a pilot returns; it has made six requests, the last of them the
    third status poll, and exactly one of them the [ground_takeoff]
    command. *)
Theorem takeoff_ready_ready_flying (fuel : nat) :
  access_level (self s0) = JStr "PILOT" ->
  (2 <= fuel)%nat ->
  exists s' made,
    takeoff w fuel s0 = (Return tt, s')
    /\ sent s' = (sent s0 ++ made)%list
    /\ map url made
       = map (fun e => base ++ "/api/" ++ e)
           ["status"; "set_fault_override/3"; "set_fault_override/2";
            "status"; "async_command"; "status"]
    /\ takeoffs made = 1%nat
    /\ polls made = 3%nat.
Proof.
  intros Hpilot Hfuel. destruct fuel as [| [| n]]; try lia.
  pose (script := nth_error scenario_phases).
  destruct (takeoff_prefix w s0 script token status_endpoint other_endpoints
              "READY_FOR_GROUND_TAKEOFF" Hpilot eq_refl)
    as (s3 & h3 & Heq & A3 & C3 & K3 & U3).
  assert (N4 : script (count (is_status_poll (baseurl (self s0))) h3)
               = Some "READY_FOR_GROUND_TAKEOFF") by now rewrite C3.
  destruct (scripted_poll w s0 script token status_endpoint s3 h3 _ A3 N4)
    as (st4 & s4 & r4 & E4 & P4 & A4 & U4 & C4 & K4).
  destruct (scripted_request w s0 token other_endpoints s4 _ "async_command"
              [("command", Bytes "ground_takeoff")] A4 eq_refl eq_refl)
    as (j5 & s5 & r5 & E5 & A5 & U5 & C5 & K5).
  assert (N6 : script (count (is_status_poll (baseurl (self s0)))
                         ((h3 ++ [r4]) ++ [r5]))
               = Some "FLYING") by now rewrite !count_app, C3, C4, C5.
  destruct (scripted_poll w s0 script token status_endpoint s5 _ _ A5 N6)
    as (st6 & s6 & r6 & E6 & P6 & A6 & U6 & C6 & K6).
  exists s6, (((h3 ++ [r4]) ++ [r5]) ++ [r6])%list.
  split; [| split; [apply A6 | split; [| split]]].
  - rewrite Heq. cbn [takeoff_loop]. unfold bind at 1 2. unfold lift at 1.
    rewrite E4. cbn [py_get]. rewrite P4.
    change (truthy (JStr "READY_FOR_GROUND_TAKEOFF")) with true.
    cbn [negb]. unfold bind at 1. rewrite fmt_out_ascii by reflexivity.
    change (eq_str (JStr "READY_FOR_GROUND_TAKEOFF") "READY_FOR_GROUND_TAKEOFF")
      with true.
    cbv iota. unfold bind at 1. rewrite E5.
    unfold bind at 1 2. unfold lift at 1. rewrite E6. cbn [py_get]. rewrite P6.
    reflexivity.
  - rewrite !map_app, U3. cbn [map app]. now rewrite U4, U5, U6.
  - unfold takeoffs, base. rewrite !count_app, K3, K4, K5, K6. reflexivity.
  - unfold polls, base. rewrite !count_app, C3, C4, C5, C6. reflexivity.
Qed.

End TakeoffScenario.

(** [phase_server] is such a vehicle for a client at [vehicle] that has
    made no request yet. *)
Lemma phase_server_follows_script (phases : list string) :
  forall history rq phase,
    is_status_poll (baseurl (self pilot)) rq = true ->
    nth_error phases (count (is_status_poll (baseurl (self pilot))) history)
    = Some phase ->
    status_reply
      (urlopen (mock_world (phase_server phases)) (sent pilot ++ history) rq)
      phase.
Proof.
  intros history rq phase Hpoll Hnth.
  change (baseurl (self pilot)) with vehicle in Hpoll, Hnth.
  unfold status_reply. cbn [mock_world urlopen sent pilot app].
  unfold phase_server. rewrite Hpoll, Hnth.
  eexists. split; [reflexivity |]. split; [discriminate | reflexivity].
Qed.

Lemma phase_server_accepts (phases : list string) :
  forall history rq,
    is_status_poll (baseurl (self pilot)) rq = false ->
    exists j,
      urlopen (mock_world (phase_server phases)) (sent pilot ++ history) rq
      = ok_reply j.
Proof.
  intros history rq Hpoll.
  change (baseurl (self pilot)) with vehicle in Hpoll.
  cbn [mock_world urlopen sent pilot app].
  unfold phase_server. rewrite Hpoll. eexists. reflexivity.
Qed.

Lemma takeoff_ready_ready_flying_witness :
  exists s' made,
    takeoff (mock_world (phase_server scenario_phases)) 2 pilot = (Return tt, s')
    /\ sent s' = (sent pilot ++ made)%list
    /\ map url made
       = map (fun e => baseurl (self pilot) ++ "/api/" ++ e)
           ["status"; "set_fault_override/3"; "set_fault_override/2";
            "status"; "async_command"; "status"]
    /\ count (is_command (baseurl (self pilot)) "ground_takeoff") made = 1%nat
    /\ count (is_status_poll (baseurl (self pilot))) made = 3%nat.
Proof.
  apply (takeoff_ready_ready_flying
           (mock_world (phase_server scenario_phases)) pilot eq_refl
           (phase_server_follows_script _) (phase_server_accepts _)).
  - reflexivity.
  - lia.
Defined.

(** ** [land] *)

Section LandingFacts.

Variable w : world.

Lemma update_pilot_status_state (s : state) :
  usable_token (self s) = true ->
  exists rq,
    build_request w (self s) "status" (Dict (status_args (self s))) 20 = Return rq
    /\ baseurl (self (snd (update_pilot_status w s))) = baseurl (self s)
    /\ access_token (self (snd (update_pilot_status w s))) = access_token (self s)
    /\ sent (snd (update_pilot_status w s)) = (sent s ++ [rq])%list.
Proof.
  intros Hu.
  destruct (build_request_ok w (self s) "status" (Dict (status_args (self s))) 20
              Hu (status_args_serialisable _)) as (rq & Hrq).
  pose proof (request_json_state w "status" (Dict (status_args (self s))) 20 s
                rq Hrq) as Hs.
  exists rq. split; [exact Hrq |].
  unfold update_pilot_status, bind, get_self.
  destruct (request_json w "status" _ 20 s) as [[j | e |] s1];
    simpl in Hs; subst s1; simpl; auto.
  unfold lift. destruct (py_getitem j "sessionId"); simpl; auto.
Qed.




End LandingFacts.




Section LandingScript.

Variable w : world.
Variable s0 : state.

(** The flight phase the status endpoint reports at its poll number [k]. *)
Variable script : nat -> string.

Let base := baseurl (self s0).
Let polls := count (is_status_poll base).

Hypothesis token : usable_token (self s0) = true.

Hypothesis status_endpoint :
  forall history rq phase,
    is_status_poll base rq = true ->
    Some (script (polls history)) = Some phase ->
    status_reply (urlopen w (sent s0 ++ history) rq) phase.

Hypothesis other_endpoints :
  forall history rq,
    is_status_poll base rq = false ->
    exists j, urlopen w (sent s0 ++ history) rq = ok_reply j.


End LandingScript.


Lemma lasting_server_follows_script (phases : list string) (last : string) :
  forall history rq,
    is_status_poll (baseurl (self pilot)) rq = true ->
    status_reply
      (urlopen (mock_world (lasting_server phases last))
         (sent pilot ++ history) rq)
      (nth (count (is_status_poll (baseurl (self pilot))) history) phases last).
Proof.
  intros history rq Hpoll.
  change (baseurl (self pilot)) with vehicle in *.
  unfold status_reply. cbn [mock_world urlopen sent pilot app].
  unfold lasting_server. rewrite Hpoll.
  eexists. split; [reflexivity |]. split; [discriminate | reflexivity].
Qed.

Lemma lasting_server_accepts (phases : list string) (last : string) :
  forall history rq,
    is_status_poll (baseurl (self pilot)) rq = false ->
    exists j,
      urlopen (mock_world (lasting_server phases last))
        (sent pilot ++ history) rq
      = ok_reply j.
Proof.
  intros history rq Hpoll.
  change (baseurl (self pilot)) with vehicle in Hpoll.
  cbn [mock_world urlopen sent pilot app].
  unfold lasting_server. rewrite Hpoll. eexists. reflexivity.
Qed.



(** ** The scripted theorems at work *)

Lemma takeoff_scripted_witness :
  exists s' made,
    takeoff
      (mock_world
         (phase_server [""; "READY_FOR_GROUND_TAKEOFF"; "";
                        "READY_FOR_GROUND_TAKEOFF"; "TAKING_OFF"; "FLYING"]))
      5 pilot
    = (Return tt, s')
    /\ sent s' = (sent pilot ++ made)%list
    /\ count (is_status_poll (baseurl (self pilot))) made = 6%nat
    /\ count (is_command (baseurl (self pilot)) "ground_takeoff") made = 2%nat
    /\ count (is_command (baseurl (self pilot)) "land") made = 0%nat.
Proof.
  apply (takeoff_scripted
           (mock_world
              (phase_server [""; "READY_FOR_GROUND_TAKEOFF"; "";
                             "READY_FOR_GROUND_TAKEOFF"; "TAKING_OFF"; "FLYING"]))
           pilot
           (nth_error [""; "READY_FOR_GROUND_TAKEOFF"; "";
                       "READY_FOR_GROUND_TAKEOFF"; "TAKING_OFF"; "FLYING"])
           eq_refl
           (phase_server_follows_script _) (phase_server_accepts _)
           ""
           ["READY_FOR_GROUND_TAKEOFF"; ""; "READY_FOR_GROUND_TAKEOFF";
            "TAKING_OFF"]
           5).
  - reflexivity.
  - reflexivity.
  - intros j phase H. do 4 (destruct j as [| j]; [exact H |]).
    destruct j; discriminate.
  - reflexivity.
  - simpl. intros [H | [H | [H | [H | []]]]]; discriminate.
  - simpl. intros phase [<- | [<- | [<- | [<- | []]]]]; reflexivity.
  - simpl. lia.
Defined.

Lemma takeoff_never_flying_witness :
  fst (takeoff
         (mock_world (lasting_server [] "READY_FOR_GROUND_TAKEOFF"))
         1000 pilot)
  = OutOfFuel.
Proof.
  apply (takeoff_never_flying
           (mock_world (lasting_server [] "READY_FOR_GROUND_TAKEOFF"))
           pilot (fun _ => Some "READY_FOR_GROUND_TAKEOFF") eq_refl).
  - intros history rq phase Hpoll [= <-].
    pose proof (lasting_server_follows_script [] "READY_FOR_GROUND_TAKEOFF"
                  history rq Hpoll) as H.
    now destruct (count (is_status_poll (baseurl (self pilot))) history).
  - apply lasting_server_accepts.
  - reflexivity.
  - intros k. eexists. split; [reflexivity |].
    split; [discriminate | reflexivity].
Defined.

Lemma takeoff_phase_not_ascii_witness :
  exists s' made,
    takeoff
      (mock_world
         (phase_server ["READY_FOR_GROUND_TAKEOFF";
                        String (ascii_of_nat 233) "teint"]))
      3 pilot
    = (Raise UnicodeEncodeError, s')
    /\ sent s' = (sent pilot ++ made)%list
    /\ map url made
       = map (fun e => baseurl (self pilot) ++ "/api/" ++ e)
           ["status"; "set_fault_override/3"; "set_fault_override/2"; "status"]
    /\ count (is_command (baseurl (self pilot)) "ground_takeoff") made = 0%nat.
Proof.
  apply (takeoff_phase_not_ascii
           (mock_world
              (phase_server ["READY_FOR_GROUND_TAKEOFF";
                             String (ascii_of_nat 233) "teint"]))
           pilot
           (nth_error ["READY_FOR_GROUND_TAKEOFF";
                       String (ascii_of_nat 233) "teint"])
           eq_refl
           (phase_server_follows_script _) (phase_server_accepts _)
           "READY_FOR_GROUND_TAKEOFF" (String (ascii_of_nat 233) "teint") 3).
  - reflexivity.
  - reflexivity.
  - reflexivity.
  - reflexivity.
  - lia.
Defined.

Lemma land_scripted_witness :
  exists s' made,
    land (mock_world (phase_server ["FLYING"; ""; "FLYING"; "LANDING"])) 4 pilot
    = (Return tt, s')
    /\ sent s' = (sent pilot ++ made)%list
    /\ count (is_status_poll (baseurl (self pilot))) made = 4%nat
    /\ count (is_command (baseurl (self pilot)) "land") made = 4%nat
    /\ count (is_command (baseurl (self pilot)) "ground_takeoff") made = 0%nat.
Proof.
  apply (land_scripted
           (mock_world (phase_server ["FLYING"; ""; "FLYING"; "LANDING"]))
           pilot (nth_error ["FLYING"; ""; "FLYING"; "LANDING"])
           eq_refl
           (phase_server_follows_script _) (phase_server_accepts _)
           "LANDING" 3 4).
  - reflexivity.
  - discriminate.
  - discriminate.
  - intros j Hj. destruct j as [| [| [| j]]]; simpl; auto. lia.
  - reflexivity.
  - lia.
Defined.

(** * Further properties of the client *)

(** ** [request_json]: the request it makes *)

(** A request is built only by a client whose token can go into a header
    and for a body that can be serialised. *)
Lemma build_request_built
  (w : world) (c : client) (endpoint : string) (json_data : arg) (t : Z)
  (rq : request) :
  build_request w c endpoint json_data t = Return rq ->
  usable_token c = true /\ serialisable json_data = true.
Proof.
  unfold build_request, usable_token.
  destruct (truthy (access_token c)); cbn [negb orb].
  - destruct (access_token c) as [| [|] | n | tok | l | o]; cbn [py_str];
      try (destruct (is_ascii tok); [| discriminate]);
      (destruct json_data as [[] | b | d];
       try (destruct (serialisable _); [| discriminate]); auto).
  - destruct json_data as [[] | b | d];
      try (destruct (serialisable _); [| discriminate]); auto.
Qed.

(** X1: [request_json] makes its request exactly when the token of the
    client can go into a header and the body can be serialised; otherwise
    it raises a UnicodeEncodeError or a UnicodeDecodeError and sends
    nothing.  The request goes to [baseurl/api/endpoint] with the timeout
    of the call; it is a GET without a [Content-Type] exactly when no body
    is given, and otherwise a POST of the body with
    [Content-Type: application/json]. *)
Theorem request_json_get_or_post
  (w : world) (endpoint : string) (json_data : arg) (t : Z) (s : state) :
  ((exists rq, build_request w (self s) endpoint json_data t = Return rq)
   <-> usable_token (self s) = true /\ serialisable json_data = true)
  /\ (forall e,
        build_request w (self s) endpoint json_data t = Raise e ->
        request_json w endpoint json_data t s = (Raise e, s)
        /\ (e = UnicodeEncodeError \/ e = UnicodeDecodeError))
  /\ (forall rq,
        build_request w (self s) endpoint json_data t = Return rq ->
        sent (snd (request_json w endpoint json_data t s)) = (sent s ++ [rq])%list
        /\ url rq = baseurl (self s) ++ "/api/" ++ endpoint
        /\ timeout rq = t
        /\ (data rq = None <-> json_data = Value JNull)
        /\ (dict_get "Content-Type" (headers rq) = None
            <-> json_data = Value JNull)
        /\ (data rq = Some json_data
            /\ dict_get "Content-Type" (headers rq) = Some "application/json"
            <-> json_data <> Value JNull)).
Proof.
  split; [| split].
  - split.
    + intros (rq & Hb). now apply build_request_built in Hb.
    + intros [Hu Hs]. now apply build_request_ok.
  - intros e Hb. split; [now apply request_json_unbuilt |].
    pose proof (build_request_outcome w endpoint json_data t (self s)) as Ho.
    now rewrite Hb in Ho.
  - intros rq Hb. rewrite (request_json_state _ _ _ _ _ _ Hb).
    apply build_request_shape in Hb.
    destruct Hb as (Hu & Ht & Hd & _ & _ & Hc).
    split; [reflexivity |]. split; [exact Hu |]. split; [exact Ht |].
    rewrite Hd, Hc.
    destruct json_data as [[] | b | d];
      repeat split; intros; try discriminate; try congruence;
      try (destruct H; discriminate); auto.
Qed.

Lemma request_json_get_or_post_witness :
  exists rq,
    sent (snd (request_json (mock_world (always (ok_reply JNull)))
                 "status" (Dict [("sessionId", Bytes "s")]) 20 pilot))
    = (sent pilot ++ [rq])%list
    /\ url rq = "http://192.168.10.1/api/status".
Proof.
  destruct (proj1 (proj1 (request_json_get_or_post
                            (mock_world (always (ok_reply JNull)))
                            "status" (Dict [("sessionId", Bytes "s")]) 20
                            pilot)))
    as [Hu Hs].
  - eexists. reflexivity.
  - destruct (proj2 (proj2 (request_json_get_or_post
                              (mock_world (always (ok_reply JNull)))
                              "status" (Dict [("sessionId", Bytes "s")]) 20
                              pilot)) _ eq_refl) as (H1 & H2 & _).
    eexists. split; [exact H1 | exact H2].
Defined.

(** ** [request_json]: how it ends *)

Lemma error_class (code : Z) :
  (code / 100 =? 4) || (code / 100 =? 5) = true <-> 400 <= code < 600.
Proof.
  rewrite orb_true_iff, !Z.eqb_eq.
  pose proof (Z.div_mod code 100 ltac:(lia)) as Hd.
  pose proof (Z.mod_pos_bound code 100 ltac:(lia)) as Hm.
  lia.
Qed.

(** X2: a reply with a status from 400 to 599 makes [request_json] raise
    an HTTPError with that status, whatever the body of the reply says. *)
Theorem request_json_error_status
  (w : world) (endpoint : string) (json_data : arg) (t : Z) (s : state)
  (rq : request) (r : response) :
  build_request w (self s) endpoint json_data t = Return rq ->
  urlopen w (sent s) rq = UrlResponse r ->
  400 <= getcode r < 600 ->
  fst (request_json w endpoint json_data t s) = Raise (HTTPError (getcode r)).
Proof.
  intros Hb Hopen Hcode. apply error_class in Hcode.
  unfold request_json, do_urlopen, bind, get_self, lift. rewrite Hb, Hopen.
  cbv zeta. rewrite Hcode. reflexivity.
Qed.

Lemma request_json_error_status_witness :
  fst (request_json
         (mock_world
            (always (UrlResponse
                       (mkResponse 503 true (Json (JObj [("data", JNum 1)]))))))
         "status" (Value JNull) 20 pilot)
  = Raise (HTTPError 503).
Proof.
  eapply (request_json_error_status _ "status" (Value JNull) 20 pilot _
            (mkResponse 503 true (Json (JObj [("data", JNum 1)])))).
  - reflexivity.
  - reflexivity.
  - simpl. lia.
Defined.

(** X3: [request_json] returns a value exactly when it built its request
    and the reply has a status outside 400..599, can be read, and decodes
    to a dict that has the value at its key [data]; in every other case it
    raises an exception that derives from [Exception]. *)
Theorem request_json_returns_iff
  (w : world) (endpoint : string) (json_data : arg) (t : Z) (s : state) :
  (forall v,
      fst (request_json w endpoint json_data t s) = Return v
      <-> exists rq r o,
            build_request w (self s) endpoint json_data t = Return rq
            /\ urlopen w (sent s) rq = UrlResponse r
            /\ ~ (400 <= getcode r < 600)
            /\ has_read r = true
            /\ content r = Json (JObj o)
            /\ dict_get "data" o = Some v)
  /\ ((exists v, fst (request_json w endpoint json_data t s) = Return v)
      \/ (exists e, fst (request_json w endpoint json_data t s) = Raise e
                    /\ is_Exception e = true)).
Proof.
  split.
  - intros v. unfold request_json, do_urlopen, bind, get_self, raise, lift.
    destruct (build_request w (self s) endpoint json_data t) as [rq | e |] eqn:Hb.
    2, 3: (split; [discriminate | intros (rq & r & o & [=] & _)]).
    destruct (urlopen w _ _) as [f | r] eqn:Hopen; cbv zeta.
    { split; [discriminate | intros (rq' & r & o & [= <-] & Ho & _)].
      rewrite Hopen in Ho. discriminate. }
    destruct ((getcode r / 100 =? 4) || (getcode r / 100 =? 5)) eqn:Hc.
    { split; [discriminate |]. intros (rq' & r' & o & [= <-] & Ho & Hn & _).
      rewrite Hopen in Ho. injection Ho as <-.
      apply error_class in Hc. contradiction. }
    assert (Hn : ~ (400 <= getcode r < 600)).
    { intros H. apply error_class in H. congruence. }
    destruct (has_read r) eqn:Hr; cbn [negb].
    2: { split; [discriminate |].
         intros (rq' & r' & o & [= <-] & Ho & _ & H & _).
         rewrite Hopen in Ho. injection Ho as <-. congruence. }
    unfold read_json.
    destruct (content r) as [f | | j] eqn:Hbody;
      try (split; [discriminate |];
           intros (rq' & r' & o & [= <-] & Ho & _ & _ & H & _);
           rewrite Hopen in Ho; injection Ho as <-; congruence).
    destruct j as [| b | n | u | l | o];
      try (split; [simpl; try discriminate |
                   intros (rq' & r' & o' & [= <-] & Ho & _ & _ & H & _);
                   rewrite Hopen in Ho; injection Ho as <-; congruence]).
    + simpl. destruct (contains "data" u); simpl; discriminate.
    + simpl. destruct (existsb _ l); simpl; discriminate.
    + simpl. destruct (dict_get "data" o) as [v' |] eqn:Hd; simpl.
      * split.
        -- intros [= ->]. exists rq, r, o. auto 10.
        -- intros (rq' & r' & o' & [= <-] & Ho & _ & _ & Hb' & H).
           rewrite Hopen in Ho. injection Ho as <-.
           rewrite Hbody in Hb'. injection Hb' as <-.
           rewrite Hd in H. now injection H as ->.
      * split.
        -- destruct (dict_get "error" o) as [err |]; simpl;
             [destruct (py_str w err) |]; discriminate.
        -- intros (rq' & r' & o' & [= <-] & Ho & _ & _ & Hb' & H).
           rewrite Hopen in Ho. injection Ho as <-.
           rewrite Hbody in Hb'. injection Hb' as <-. congruence.
  - pose proof (request_json_raises w endpoint json_data t s) as H.
    destruct (fst (request_json w endpoint json_data t s)) as [v | e |];
      [left; now exists v | right; now exists e | contradiction].
Qed.

(** X4: a readable reply with a good status whose body is a dict without the
    key [data] makes [request_json] raise a RuntimeError whose message
    names the [error] the server reports, or None when it reports none;
    an [error] that is a string with a character outside ASCII cannot be
    formatted into the message and makes it raise a UnicodeEncodeError
    instead. *)
Theorem request_json_server_error
  (w : world) (endpoint : string) (json_data : arg) (t : Z) (s : state)
  (rq : request) (r : response) (o : dict json) :
  build_request w (self s) endpoint json_data t = Return rq ->
  urlopen w (sent s) rq = UrlResponse r ->
  ~ (400 <= getcode r < 600) ->
  has_read r = true ->
  content r = Json (JObj o) ->
  dict_get "data" o = None ->
  fst (request_json w endpoint json_data t s)
  = match dict_get "error" o with
    | None | Some JNull => Raise (RuntimeError "No response data: None")
    | Some (JStr msg) =>
        if is_ascii msg
        then Raise (RuntimeError ("No response data: " ++ msg))
        else Raise UnicodeEncodeError
    | Some (JBool true) => Raise (RuntimeError "No response data: True")
    | Some (JBool false) => Raise (RuntimeError "No response data: False")
    | Some (JNum n) =>
        Raise (RuntimeError ("No response data: " ++ string_of_Z n))
    | Some error => Raise (RuntimeError ("No response data: " ++ repr w error))
    end.
Proof.
  intros Hb Hopen Hcode Hread Hbody Hdata.
  assert (Hc : (getcode r / 100 =? 4) || (getcode r / 100 =? 5) = false).
  { destruct (_ || _) eqn:E; [| reflexivity].
    apply error_class in E. contradiction. }
  unfold request_json, do_urlopen, bind, get_self, raise, lift.
  rewrite Hb, Hopen. cbv zeta. rewrite Hc, Hread. cbn [negb].
  unfold read_json. rewrite Hbody. cbn [py_in]. rewrite Hdata. cbn [negb py_get].
  destruct (dict_get "error" o) as [[| [|] | n | msg | l | d] |];
    cbn [py_str]; try reflexivity.
  destruct (is_ascii msg); reflexivity.
Qed.

Lemma request_json_server_error_witness :
  fst (request_json
         (mock_world
            (always (UrlResponse
                       (mkResponse 200 true
                          (Json (JObj [("error", JStr "no such skill")]))))))
         "set_skill/x" (Dict [("args", Dict [])]) 20 pilot)
  = Raise (RuntimeError "No response data: no such skill").
Proof.
  eapply (request_json_server_error _ "set_skill/x" (Dict [("args", Dict [])]) 20
            pilot _
           (mkResponse 200 true (Json (JObj [("error", JStr "no such skill")])))
           [("error", JStr "no such skill")]).
  - reflexivity.
  - reflexivity.
  - simpl. lia.
  - reflexivity.
  - reflexivity.
  - reflexivity.
Defined.

(** ** [request_json]: what it raises when the reply cannot be used *)

(** X5: a failure of [urlopen] reaches the caller as the exception it is; a
    reply with a good status raises an IOError when it has no [read], the
    failure of [read] when reading fails, and a ValueError when the body is
    not JSON. *)
Theorem request_json_unusable_reply
  (w : world) (endpoint : string) (json_data : arg) (t : Z) (s : state)
  (rq : request) :
  build_request w (self s) endpoint json_data t = Return rq ->
  let outcome := fst (request_json w endpoint json_data t s) in
  (forall f, urlopen w (sent s) rq = UrlFails f ->
             outcome = Raise (exn_of_failure f))
  /\ (forall r,
        urlopen w (sent s) rq = UrlResponse r ->
        ~ (400 <= getcode r < 600) ->
        (has_read r = false -> outcome = Raise IOError)
        /\ (has_read r = true ->
            (content r = NotJson -> outcome = Raise ValueError)
            /\ (forall f, content r = ReadFails f ->
                          outcome = Raise (exn_of_failure f)))).
Proof.
  intros Hb. cbv zeta.
  unfold request_json, do_urlopen, bind, get_self, raise, lift. rewrite Hb.
  split.
  - intros f ->. reflexivity.
  - intros r -> Hcode. cbv zeta.
    assert (Hc : (getcode r / 100 =? 4) || (getcode r / 100 =? 5) = false).
    { destruct (_ || _) eqn:E; [| reflexivity].
      apply error_class in E. contradiction. }
    rewrite Hc. split.
    + intros ->. reflexivity.
    + intros ->. unfold read_json. split.
      * intros ->. reflexivity.
      * intros f ->. reflexivity.
Qed.

Lemma request_json_unusable_reply_witness :
  fst (request_json
         (mock_world (always (UrlResponse (mkResponse 200 true NotJson))))
         "status" (Value JNull) 20 pilot)
  = Raise ValueError.
Proof.
  eapply (proj2 (request_json_unusable_reply
                   (mock_world (always (UrlResponse (mkResponse 200 true NotJson))))
                   "status" (Value JNull) 20 pilot _ eq_refl)
            (mkResponse 200 true NotJson)).
  - reflexivity.
  - simpl. lia.
  - reflexivity.
  - reflexivity.
Defined.

(** ** [update_pilot_status] and the session *)

(** A token that cannot go into a header ends the building of any request
    with a UnicodeEncodeError. *)
Lemma build_request_unusable
  (w : world) (c : client) (endpoint : string) (json_data : arg) (t : Z) :
  usable_token c = false ->
  build_request w c endpoint json_data t = Raise UnicodeEncodeError.
Proof.
  unfold usable_token, build_request.
  destruct (truthy (access_token c)); cbn [negb orb]; [| discriminate].
  destruct (access_token c) as [| [|] | n | tok | l | o]; try discriminate.
  cbn [py_str]. now intros ->.
Qed.

(** X6: a poll that returns has stored the session id of the report, has
    changed no other field, and the next poll sends that session id back
    (when it is not empty). *)
Theorem update_pilot_status_keeps_session
  (w : world) (s s1 : state) (status : json) :
  update_pilot_status w s = (Return status, s1) ->
  exists report sid next body,
    status = JObj report
    /\ dict_get "sessionId" report = Some sid
    /\ self s1 = set_session_id sid (self s)
    /\ sent (snd (update_pilot_status w s1)) = (sent s1 ++ [next])%list
    /\ data next = Some (Dict body)
    /\ dict_get "sessionId" body = if truthy sid then Some (Value sid) else None.
Proof.
  intros H.
  destruct (build_request w (self s) "status" (Dict (status_args (self s))) 20)
    as [rq | e |] eqn:Hb.
  2: { unfold update_pilot_status, bind, get_self in H.
       rewrite (request_json_unbuilt _ _ _ _ _ _ Hb) in H. discriminate. }
  2: { unfold update_pilot_status, request_json, bind, get_self, lift in H.
       rewrite Hb in H. discriminate. }
  pose proof (request_json_state w "status" (Dict (status_args (self s))) 20 s
                rq Hb) as Hs.
  destruct (build_request_built _ _ _ _ _ _ Hb) as [Hu _].
  unfold update_pilot_status, bind, get_self in H.
  destruct (request_json w "status" _ 20 s) as [[j | e |] s'];
    simpl in Hs; subst s'; try discriminate.
  unfold lift, py_getitem in H.
  destruct j as [| | | | | report]; try discriminate.
  destruct (dict_get "sessionId" report) as [sid |] eqn:E; [| discriminate].
  unfold set_self, ret in H. injection H as <- <-.
  set (c1 := set_session_id sid (self s)).
  destruct (update_pilot_status_state w (mkState c1 (sent s ++ [rq])) Hu)
    as (next & Hnext & _ & _ & Hl).
  exists report, sid, next, (status_args c1).
  split; [reflexivity |]. split; [exact E |].
  split; [reflexivity |]. split; [exact Hl |].
  apply build_request_shape in Hnext. destruct Hnext as (_ & _ & Hd & _).
  split; [exact Hd |].
  unfold status_args, c1. simpl session_id. destruct (truthy sid); reflexivity.
Qed.

Lemma update_pilot_status_keeps_session_witness :
  exists report sid next body,
    JObj [("sessionId", JStr "session-1"); ("flightPhase", JStr "FLYING")]
    = JObj report
    /\ dict_get "sessionId" report = Some sid
    /\ self (snd (update_pilot_status
                    (mock_world (phase_server ["FLYING"; "FLYING"])) pilot))
       = set_session_id sid (self pilot)
    /\ sent (snd (update_pilot_status
                    (mock_world (phase_server ["FLYING"; "FLYING"]))
                    (snd (update_pilot_status
                            (mock_world (phase_server ["FLYING"; "FLYING"]))
                            pilot))))
       = (sent (snd (update_pilot_status
                       (mock_world (phase_server ["FLYING"; "FLYING"])) pilot))
          ++ [next])%list
    /\ data next = Some (Dict body)
    /\ dict_get "sessionId" body = if truthy sid then Some (Value sid) else None.
Proof.
  apply (update_pilot_status_keeps_session
           (mock_world (phase_server ["FLYING"; "FLYING"])) pilot).
  vm_compute. reflexivity.
Defined.

(** X7: a status report without a session id makes the poll raise a KeyError
    after its request; the session id of the client stays what it was. *)
Theorem update_pilot_status_needs_session
  (w : world) (s s1 : state) (report : dict json) :
  request_json w "status" (Dict (status_args (self s))) 20 s
  = (Return (JObj report), s1) ->
  dict_get "sessionId" report = None ->
  update_pilot_status w s = (Raise (KeyError "sessionId"), s1)
  /\ session_id (self s1) = session_id (self s).
Proof.
  intros Hreq Hsid.
  assert (Hs : self s1 = self s).
  { destruct (build_request w (self s) "status" (Dict (status_args (self s))) 20)
      as [rq | e |] eqn:Hb.
    - pose proof (request_json_state w "status" _ 20 s rq Hb) as Hs.
      rewrite Hreq in Hs. simpl in Hs. now subst s1.
    - rewrite (request_json_unbuilt _ _ _ _ _ _ Hb) in Hreq. discriminate.
    - unfold request_json, bind, get_self, lift in Hreq.
      rewrite Hb in Hreq. discriminate. }
  unfold update_pilot_status, bind, get_self. rewrite Hreq.
  unfold lift, py_getitem. rewrite Hsid. split; [reflexivity |].
  now rewrite Hs.
Qed.

Lemma update_pilot_status_needs_session_witness :
  fst (update_pilot_status
         (mock_world (always (ok_reply (JObj [("flightPhase", JStr "FLYING")]))))
         pilot)
  = Raise (KeyError "sessionId").
Proof.
  destruct (update_pilot_status_needs_session
              (mock_world
                 (always (ok_reply (JObj [("flightPhase", JStr "FLYING")]))))
              pilot _ [("flightPhase", JStr "FLYING")] eq_refl eq_refl)
    as [H _].
  rewrite H. reflexivity.
Defined.

(** ** [disable_faults] *)

(** X8: [disable_faults] asks for no access level and changes no field.
    With a token that cannot go into a header it raises a
    UnicodeEncodeError and makes no request.  Otherwise its first request
    is a POST of [{override_on: True, fault_active: False}] to the
    override of fault 3; when that request raises it is the only one, and
    otherwise a second one posts the same to the override of fault 2.  So
    when [disable_faults] returns it has made two requests, one for each
    fault. *)
Theorem disable_faults_requests (w : world) (s : state) :
  let base := baseurl (self s) in
  let s' := snd (disable_faults w s) in
  let d := Dict [("override_on", Value (JBool true));
                 ("fault_active", Value (JBool false))] in
  (usable_token (self s) = false ->
   disable_faults w s = (Raise UnicodeEncodeError, s))
  /\ (usable_token (self s) = true ->
      self s' = self s
      /\ exists rq3,
           to_endpoint base "set_fault_override/3" rq3 = true
           /\ data rq3 = Some d
           /\ ((sent s' = (sent s ++ [rq3])%list
                /\ exists e,
                     fst (request_json w "set_fault_override/3" d 20 s)
                     = Raise e
                     /\ fst (disable_faults w s) = Raise e)
               \/ (exists rq2,
                     to_endpoint base "set_fault_override/2" rq2 = true
                     /\ data rq2 = Some d
                     /\ sent s' = (sent s ++ [rq3; rq2])%list))).
Proof.
  cbv zeta.
  set (d := Dict [("override_on", Value (JBool true));
                  ("fault_active", Value (JBool false))]).
  set (e2 := "set_fault_override/" ++ string_of_Z 2).
  set (e3 := "set_fault_override/" ++ string_of_Z 3).
  split.
  - intros Hu. unfold disable_faults, for_each, bind. fold d e2 e3.
    now rewrite (request_json_unbuilt _ _ _ _ _ _
                   (build_request_unusable w (self s) e3 d 20 Hu)).
  - intros Hu.
    destruct (build_request_ok w (self s) e3 d 20 Hu eq_refl) as (rq3 & Hb3).
    destruct (build_request_ok w (self s) e2 d 20 Hu eq_refl) as (rq2 & Hb2).
    pose proof (request_json_state w e3 d 20 s rq3 Hb3) as H3.
    pose proof (request_json_raises w e3 d 20 s) as Hr3.
    assert (O3 : to_endpoint (baseurl (self s)) "set_fault_override/3" rq3 = true
                 /\ data rq3 = Some d).
    { split; [now rewrite (to_endpoint_built _ _ _ _ _ _ _ Hb3) |].
      now apply build_request_shape in Hb3. }
    assert (O2 : to_endpoint (baseurl (self s)) "set_fault_override/2" rq2 = true
                 /\ data rq2 = Some d).
    { split; [now rewrite (to_endpoint_built _ _ _ _ _ _ _ Hb2) |].
      now apply build_request_shape in Hb2. }
    unfold disable_faults, for_each, bind, ret. fold d e2 e3.
    change (request_json w "set_fault_override/3" d 20 s)
      with (request_json w e3 d 20 s).
    destruct (request_json w e3 d 20 s) as [[j | e |] s1];
      simpl in H3, Hr3; subst s1.
    3: contradiction.
    2: { simpl. split; [reflexivity |]. exists rq3.
         split; [apply O3 |]. split; [apply O3 |].
         left. split; [reflexivity |]. exists e. split; reflexivity. }
    set (s1 := mkState (self s) (sent s ++ [rq3])).
    pose proof (request_json_state w e2 d 20 s1 rq2 Hb2) as H2.
    assert (Hmade : sent (mkState (self s1) (sent s1 ++ [rq2]))
                    = (sent s ++ [rq3; rq2])%list).
    { simpl. now rewrite <- app_assoc. }
    destruct (request_json w e2 d 20 s1) as [[j' | e |] s2];
      simpl in H2; subst s2; cbn [fst snd self];
      (split; [reflexivity |]; exists rq3;
       split; [apply O3 |]; split; [apply O3 |];
       right; exists rq2;
       split; [apply O2 |]; split; [apply O2 | exact Hmade]).
Qed.

Lemma disable_faults_requests_witness :
  exists rq3 rq2,
    to_endpoint "http://192.168.10.1" "set_fault_override/3" rq3 = true
    /\ to_endpoint "http://192.168.10.1" "set_fault_override/2" rq2 = true
    /\ sent (snd (disable_faults (mock_world (always (ok_reply JNull))) pilot))
       = (sent pilot ++ [rq3; rq2])%list.
Proof.
  destruct (proj2 (disable_faults_requests
                     (mock_world (always (ok_reply JNull))) pilot) eq_refl)
    as (_ & rq3 & H3 & _ & [(_ & e & Hn & _) | (rq2 & H2 & _ & Hs)]).
  - exfalso. discriminate Hn.
  - exists rq3, rq2. split; [exact H3 |]. split; [exact H2 | exact Hs].
Defined.

(** ** Operations for pilots only *)

(** X9: on a client whose access level is not PILOT, [land] and [set_skill]
    return at once: no request is made and nothing changes. *)
Theorem land_and_set_skill_need_pilot
  (w : world) (fuel : nat) (skill_key : string) (s : state) :
  access_level (self s) <> JStr "PILOT" ->
  land w fuel s = (Return tt, s)
  /\ set_skill w skill_key s = (Return tt, s).
Proof.
  intros H. apply eq_str_false in H.
  unfold land, set_skill, bind, get_self, ret. rewrite H. auto.
Qed.

Lemma land_and_set_skill_need_pilot_witness :
  land (mock_world (always (ok_reply JNull))) 7 (fresh vehicle)
  = (Return tt, fresh vehicle)
  /\ set_skill (mock_world (always (ok_reply JNull))) "samples.com_link.ComLink"
       (fresh vehicle)
     = (Return tt, fresh vehicle).
Proof.
  apply land_and_set_skill_need_pilot. simpl. discriminate.
Defined.

(** X10: [set_skill] of a pilot whose token can go into a header makes one
    request, a POST of [{args: {}}] to [set_skill/<skill_key>], changes no
    field, and returns when the request returns, whatever its payload; it
    raises what the request raises.  With a token that cannot go into a
    header it raises a UnicodeEncodeError and makes no request. *)
Theorem set_skill_request (w : world) (skill_key : string) (s : state) :
  access_level (self s) = JStr "PILOT" ->
  let call := request_json w ("set_skill/" ++ skill_key)
                (Dict [("args", Dict [])]) 20 s in
  (usable_token (self s) = false ->
   set_skill w skill_key s = (Raise UnicodeEncodeError, s))
  /\ (usable_token (self s) = true ->
      exists rq,
        snd (set_skill w skill_key s) = mkState (self s) (sent s ++ [rq])
        /\ url rq = baseurl (self s) ++ "/api/set_skill/" ++ skill_key
        /\ data rq = Some (Dict [("args", Dict [])])
        /\ (fst (set_skill w skill_key s) = Return tt
            <-> exists payload, fst call = Return payload)
        /\ (forall e, fst (set_skill w skill_key s) = Raise e
                      <-> fst call = Raise e)).
Proof.
  intros Hpilot. cbv zeta. split.
  - intros Hu. unfold set_skill, bind, get_self. rewrite Hpilot.
    cbn [eq_str]. rewrite String.eqb_refl. cbn [negb].
    now rewrite (request_json_unbuilt _ _ _ _ _ _
                   (build_request_unusable w (self s) _ _ 20 Hu)).
  - intros Hu.
    destruct (build_request_ok w (self s) ("set_skill/" ++ skill_key)
                (Dict [("args", Dict [])]) 20 Hu eq_refl) as (rq & Hb).
    pose proof (request_json_state w ("set_skill/" ++ skill_key)
                  (Dict [("args", Dict [])]) 20 s rq Hb) as Hs.
    pose proof (request_json_raises w ("set_skill/" ++ skill_key)
                  (Dict [("args", Dict [])]) 20 s) as Hr.
    exists rq.
    apply build_request_shape in Hb. destruct Hb as (Hurl & _ & Hd & _).
    unfold set_skill, bind, get_self, ret. rewrite Hpilot.
    cbn [eq_str]. rewrite String.eqb_refl. cbn [negb].
    destruct (request_json w ("set_skill/" ++ skill_key) _ 20 s)
      as [[j | e |] s1]; simpl in Hs, Hr; subst s1; cbn [fst snd].
    + repeat split; try discriminate; eauto.
    + repeat split; try discriminate; auto;
        try (intros [p [=]]); try (intros [=]); congruence.
    + contradiction.
Qed.

Lemma set_skill_request_witness :
  exists rq,
    snd (set_skill (mock_world (always (ok_reply JNull)))
           "samples.com_link.ComLink" pilot)
    = mkState (self pilot) (sent pilot ++ [rq])
    /\ url rq = "http://192.168.10.1/api/set_skill/samples.com_link.ComLink".
Proof.
  destruct (proj2 (set_skill_request (mock_world (always (ok_reply JNull)))
                     "samples.com_link.ComLink" pilot eq_refl) eq_refl)
    as (rq & Hs & Hu & _).
  exists rq. split; [exact Hs | exact Hu].
Defined.

(** ** [_authenticate] and the constructor *)

(** X11: when the reply to the authentication request is a dict and either no
    pilot access was asked for or the reply grants PILOT, [_authenticate]
    returns with the access level and the access token of the reply (None
    for one that is absent) stored, and nothing else changed. *)
Theorem authenticate_granted
  (w : world) (pilot : bool) (token_file : option string) (s s1 : state)
  (request : arg) (reply : dict json) :
  authentication_request w pilot token_file = Return request ->
  request_json w "authentication" request 20 s = (Return (JObj reply), s1) ->
  pilot = false \/ dict_get "accessLevel" reply = Some (JStr "PILOT") ->
  exists rq,
    build_request w (self s) "authentication" request 20 = Return rq
    /\ _authenticate w pilot token_file s
       = (Return tt,
          mkState
            (mkClient (baseurl (self s))
               match dict_get "accessToken" reply with Some v => v | None => JNull end
               (session_id (self s))
               match dict_get "accessLevel" reply with Some v => v | None => JNull end)
            (sent s ++ [rq])).
Proof.
  intros Hrq Hcall Hok.
  destruct (request_json_returns w "authentication" request 20 s (JObj reply))
    as (rq & _ & _ & Hb & _); [now rewrite Hcall |].
  pose proof (request_json_state w "authentication" request 20 s rq Hb) as Hs.
  rewrite Hcall in Hs. simpl in Hs. subst s1.
  exists rq. split; [exact Hb |].
  unfold _authenticate, bind, lift, set_self, raise. rewrite Hrq, Hcall.
  cbn [py_get].
  assert (Hgo : pilot
                && negb (eq_str match dict_get "accessLevel" reply with
                                | Some v => v
                                | None => JNull
                                end "PILOT") = false).
  { destruct Hok as [-> | ->]; [reflexivity |].
    cbn [eq_str]. rewrite String.eqb_refl. apply andb_false_r. }
  rewrite Hgo. reflexivity.
Qed.

Lemma authenticate_granted_witness :
  exists rq,
    build_request
      (mock_world
         (always (ok_reply (JObj [("accessLevel", JStr "PHONE");
                                  ("accessToken", JStr "tok7")]))))
      (self (fresh vehicle)) "authentication"
      (Dict [("client_id", Bytes "123e4567-e89b-12d3-a456-426614174000");
             ("requested_level", Value (JNum 4));
             ("commandeer", Value (JBool true))]) 20
    = Return rq
    /\ __init__ (mock_world
                   (always (ok_reply (JObj [("accessLevel", JStr "PHONE");
                                            ("accessToken", JStr "tok7")]))))
         vehicle false None
       = (Return tt,
          mkState (mkClient vehicle (JStr "tok7") JNull (JStr "PHONE")) [rq]).
Proof.
  apply (authenticate_granted
           (mock_world
              (always (ok_reply (JObj [("accessLevel", JStr "PHONE");
                                       ("accessToken", JStr "tok7")]))))
           false None (fresh vehicle)
           (snd (request_json
                   (mock_world
                      (always (ok_reply (JObj [("accessLevel", JStr "PHONE");
                                               ("accessToken", JStr "tok7")]))))
                   "authentication"
                   (Dict [("client_id",
                           Bytes "123e4567-e89b-12d3-a456-426614174000");
                          ("requested_level", Value (JNum 4));
                          ("commandeer", Value (JBool true))]) 20 (fresh vehicle)))
           (Dict [("client_id", Bytes "123e4567-e89b-12d3-a456-426614174000");
                  ("requested_level", Value (JNum 4));
                  ("commandeer", Value (JBool true))])
           [("accessLevel", JStr "PHONE"); ("accessToken", JStr "tok7")]).
  - reflexivity.
  - vm_compute. reflexivity.
  - left. reflexivity.
Defined.

(** X12: a token file that is named but does not exist ends [_authenticate] in
    [sys.exit (1)] before any request: the state is untouched. *)
Theorem authenticate_missing_token_file
  (w : world) (pilot : bool) (path : string) (s : state) :
  path <> "" ->
  filesystem w path = NoEntry ->
  _authenticate w pilot (Some path) s = (Raise (SystemExit 1), s).
Proof.
  intros Hpath Hfs. apply String.eqb_neq in Hpath.
  unfold _authenticate, bind, lift, authentication_request.
  rewrite Hpath, Hfs. reflexivity.
Qed.

Lemma authenticate_missing_token_file_witness :
  __init__ (mock_world (always (ok_reply JNull))) vehicle true
    (Some "/tmp/sim_token")
  = (Raise (SystemExit 1), fresh vehicle).
Proof.
  apply authenticate_missing_token_file.
  - discriminate.
  - reflexivity.
Defined.

(** What [strip] removes is white space, from both ends, and it leaves
    none at either end. *)
Lemma lstrip_spec (s : string) :
  exists l,
    s = l ++ lstrip s
    /\ forallb is_space (list_ascii_of_string l) = true
    /\ forall c rest, lstrip s = String c rest -> is_space c = false.
Proof.
  induction s as [| c s (l & Hl & Hsp & Hhd)]; simpl.
  - exists "". repeat split. discriminate.
  - destruct (is_space c) eqn:E.
    + exists (String c l). simpl. rewrite E, Hsp. repeat split; auto.
      now rewrite <- Hl.
    + exists "". repeat split. now intros c' rest [= <- _].
Qed.

Lemma append_one_inv (pre : string) (c a : ascii) (t : string) :
  String a t = pre ++ String c "" ->
  (t = "" /\ a = c) \/ exists pre', t = pre' ++ String c "".
Proof.
  destruct pre as [| b pre]; simpl; intros [= -> ->]; [now left |].
  right. now exists pre.
Qed.

Lemma rstrip_spec (s : string) :
  exists r,
    s = rstrip s ++ r
    /\ forallb is_space (list_ascii_of_string r) = true
    /\ (forall pre c, rstrip s = pre ++ String c "" -> is_space c = false)
    /\ (forall c rest, s = String c rest -> is_space c = false ->
                       exists rest', rstrip s = String c rest').
Proof.
  induction s as [| c s (r & Hr & Hsp & Hlast & _)].
  - exists "". split; [reflexivity |]. split; [reflexivity |].
    split; [| discriminate]. intros [| a pre] c; discriminate.
  - cbn [rstrip]. destruct (rstrip s) as [| a t] eqn:E.
    + destruct (is_space c) eqn:Ec.
      * exists (String c r). simpl in Hr. split; [simpl; now rewrite <- Hr |].
        split; [simpl; now rewrite Ec, Hsp |].
        split; [exact Hlast |].
        intros c' rest [= <- _]. congruence.
      * exists r. simpl in Hr. split; [simpl; now rewrite <- Hr |].
        split; [exact Hsp |]. split.
        -- intros pre c' H. apply append_one_inv in H.
           destruct H as [[_ ->] | [pre' H]]; [exact Ec |].
           destruct pre'; discriminate.
        -- intros c' rest [= <- _] _. eauto.
    + exists r. split; [simpl; f_equal; exact Hr |].
      split; [exact Hsp |]. split.
      * intros pre c' H. apply append_one_inv in H.
        destruct H as [[[=] _] | [pre' H]]. eapply Hlast. exact H.
      * intros c' rest [= <- _] _. eauto.
Qed.

(** X13: the credentials sent are the contents of the token file without the
    white space around them; the request also names the client id and asks
    for level 8 for a pilot and 4 otherwise. *)
Theorem authentication_request_credentials
  (w : world) (pilot : bool) (path token : string) :
  path <> "" ->
  filesystem w path = Contents token ->
  exists body credentials l r,
    authentication_request w pilot (Some path) = Return (Dict body)
    /\ dict_get "credentials" body = Some (Bytes credentials)
    /\ dict_get "client_id" body = Some (Bytes (uuid4 w))
    /\ dict_get "requested_level" body
       = Some (Value (JNum (if pilot then 8 else 4)))
    /\ token = l ++ credentials ++ r
    /\ forallb is_space (list_ascii_of_string l) = true
    /\ forallb is_space (list_ascii_of_string r) = true
    /\ (forall c rest, credentials = String c rest -> is_space c = false)
    /\ (forall pre c, credentials = pre ++ String c "" -> is_space c = false).
Proof.
  intros Hpath Hfs. apply String.eqb_neq in Hpath.
  destruct (lstrip_spec token) as (l & Hl & Hlsp & Hhd).
  destruct (rstrip_spec (lstrip token)) as (r & Hr & Hrsp & Hlast & Hkeep).
  unfold authentication_request. rewrite Hpath, Hfs.
  eexists. exists (strip token), l, r.
  split; [reflexivity |]. split; [reflexivity |]. split; [reflexivity |].
  split; [reflexivity |]. unfold strip.
  split; [now rewrite <- Hr |]. split; [exact Hlsp |]. split; [exact Hrsp |].
  split; [| exact Hlast].
  intros c rest Hc.
  destruct (lstrip token) as [| c0 t] eqn:E; [discriminate |].
  specialize (Hhd c0 t eq_refl).
  destruct (Hkeep c0 t eq_refl Hhd) as (rest' & Hk).
  rewrite Hk in Hc. now injection Hc as <- _.
Qed.

Lemma authentication_request_credentials_witness :
  exists body,
    authentication_request
      (mkWorld (always (ok_reply JNull))
         (fun path => if String.eqb path "sim.token"
                      then Contents "  s3cret
"
                      else NoEntry)
         "123e4567-e89b-12d3-a456-426614174000" (fun _ => "<object>"))
      true (Some "sim.token")
    = Return (Dict body)
    /\ dict_get "credentials" body = Some (Bytes "s3cret")
    /\ dict_get "requested_level" body = Some (Value (JNum 8)).
Proof.
  destruct (authentication_request_credentials
              (mkWorld (always (ok_reply JNull))
                 (fun path => if String.eqb path "sim.token"
                              then Contents "  s3cret
"
                              else NoEntry)
                 "123e4567-e89b-12d3-a456-426614174000" (fun _ => "<object>"))
              true "sim.token" "  s3cret
")
    as (body & credentials & l & r & H1 & _ & _ & H4 & _).
  - discriminate.
  - reflexivity.
  - exists body. split; [exact H1 |]. split; [| exact H4].
    vm_compute in H1. injection H1 as <-. reflexivity.
Defined.

(** X14: a constructor that returns has made one request, the authentication
    request, without an [Authorization] header; the client it leaves is at
    [baseurl], has no session, holds the access level and access token of
    the server's reply, and is a pilot when pilot access was asked for.
    From then on the requests it makes carry the token, when it is a
    non-empty string; when that string has a character outside ASCII no
    request can be made any more: [request_json] raises a
    UnicodeEncodeError and sends nothing. *)
Theorem init_returns
  (w : world) (base : string) (pilot : bool) (token_file : option string)
  (s1 : state) :
  __init__ w base pilot token_file = (Return tt, s1) ->
  exists rq r envelope reply,
    sent s1 = [rq]
    /\ url rq = base ++ "/api/authentication"
    /\ dict_get "Authorization" (headers rq) = None
    /\ urlopen w [] rq = UrlResponse r
    /\ content r = Json (JObj envelope)
    /\ dict_get "data" envelope = Some (JObj reply)
    /\ self s1
       = mkClient base
           match dict_get "accessToken" reply with Some v => v | None => JNull end
           JNull
           match dict_get "accessLevel" reply with Some v => v | None => JNull end
    /\ (pilot = true -> access_level (self s1) = JStr "PILOT")
    /\ (forall token endpoint json_data t next,
          dict_get "accessToken" reply = Some (JStr token) ->
          token <> "" ->
          build_request w (self s1) endpoint json_data t = Return next ->
          dict_get "Authorization" (headers next) = Some ("Bearer " ++ token))
    /\ (forall token endpoint json_data t,
          dict_get "accessToken" reply = Some (JStr token) ->
          is_ascii token = false ->
          request_json w endpoint json_data t s1
          = (Raise UnicodeEncodeError, s1)).
Proof.
  unfold __init__, _authenticate, bind, lift. intros H.
  destruct (authentication_request w pilot token_file) as [request | |] eqn:Hrq;
    try discriminate.
  set (s0 := mkState (mkClient base JNull JNull JNull) []) in *.
  pose proof (request_json_returns w "authentication" request 20 s0) as Hret.
  destruct (request_json w "authentication" request 20 s0)
    as [[j | e |] s'] eqn:Hcall; try discriminate.
  destruct (Hret j eq_refl) as (rq & r & envelope & Hb & Hopen & Hbody & Hdata).
  pose proof (request_json_state w "authentication" request 20 s0 rq Hb) as Hs.
  rewrite Hcall in Hs. simpl in Hs. subst s'.
  destruct j as [| | | | | reply]; try discriminate.
  cbn [py_get] in H. unfold set_self, raise in H. cbn [self sent] in H.
  set (level := match dict_get "accessLevel" reply with
                | Some v => v
                | None => JNull
                end) in *.
  destruct (pilot && negb (eq_str level "PILOT")) eqn:Hgo; [discriminate |].
  injection H as <-.
  exists rq, r, envelope, reply.
  pose proof (build_request_shape _ _ _ _ _ _ Hb) as (Hurl & _ & _ & _ & Hauth & _).
  split; [reflexivity |]. split; [exact Hurl |]. split; [exact Hauth |].
  split; [exact Hopen |]. split; [exact Hbody |]. split; [exact Hdata |].
  split; [reflexivity |]. split; [| split].
  - intros ->. cbn [andb] in Hgo. apply negb_false_iff in Hgo.
    apply eq_str_true in Hgo. exact Hgo.
  - intros token endpoint json_data t next Htok Hne Hnext.
    destruct (build_request_built _ _ _ _ _ _ Hnext) as [Hu _].
    apply build_request_shape in Hnext.
    destruct Hnext as (_ & _ & _ & _ & Hnext & _). rewrite Hnext.
    unfold usable_token in Hu. cbn [self access_token set_access_token] in *.
    rewrite Htok in *. cbn [truthy py_str] in *.
    apply String.eqb_neq in Hne. rewrite Hne in *. cbn [negb orb] in Hu.
    now rewrite Hu.
  - intros token endpoint json_data t Htok Hascii.
    apply request_json_unbuilt, build_request_unusable.
    unfold usable_token. cbn [self access_token set_access_token].
    rewrite Htok. cbn [truthy].
    destruct token; [discriminate |]. exact Hascii.
Qed.

Lemma init_returns_witness :
  exists rq,
    sent (snd (__init__
                 (mock_world
                    (always (ok_reply (JObj [("accessLevel", JStr "PILOT");
                                             ("accessToken", JStr "tok1")]))))
                 vehicle true None))
    = [rq]
    /\ url rq = vehicle ++ "/api/authentication".
Proof.
  destruct (init_returns
              (mock_world
                 (always (ok_reply (JObj [("accessLevel", JStr "PILOT");
                                          ("accessToken", JStr "tok1")]))))
              vehicle true None
              (snd (__init__
                      (mock_world
                         (always (ok_reply (JObj [("accessLevel", JStr "PILOT");
                                                  ("accessToken", JStr "tok1")]))))
                      vehicle true None)))
    as (rq & _ & _ & _ & H1 & H2 & _).
  - vm_compute. reflexivity.
  - exists rq. split; [exact H1 | exact H2].
Defined.

(** ** [send_custom_comms]: its request and its reply *)

Lemma dict_get_set_same {V} (k : string) (v : V) (d : dict V) :
  dict_get k (dict_set k v d) = Some v.
Proof.
  induction d as [| [k' v'] d IH]; simpl.
  - now rewrite String.eqb_refl.
  - destruct (String.eqb k k') eqn:E; simpl.
    + now rewrite String.eqb_refl.
    + now rewrite E.
Qed.

Lemma dict_get_set_other {V} (k k' : string) (v : V) (d : dict V) :
  k' <> k -> dict_get k' (dict_set k v d) = dict_get k' d.
Proof.
  intros Hne. apply String.eqb_neq in Hne.
  induction d as [| [k0 v0] d IH]; simpl.
  - now rewrite Hne.
  - destruct (String.eqb k k0) eqn:E; simpl.
    + apply String.eqb_eq in E. subst k0. now rewrite Hne.
    + now rewrite IH.
Qed.

(** X15: [send_custom_comms] makes its request exactly when the token of
    the client can go into a header and the skill key is UTF-8.  Then,
    however the call ends, it has made that one request, a POST to
    [custom_comms] that names the skill and says whether a response is
    wanted, and has changed no field of the client.  Otherwise the error
    of building the request is swallowed: the call returns None and has
    sent nothing. *)
Theorem send_custom_comms_one_request
  (w : world) (skill_key bytes : string) (no_response : bool) (s : state) :
  let built := build_request w (self s) "custom_comms"
                 (rpc_request skill_key bytes no_response) 20 in
  ((exists rq, built = Return rq)
   <-> usable_token (self s) = true /\ valid_utf8 skill_key = true)
  /\ (forall rq,
        built = Return rq ->
        exists body,
          snd (send_custom_comms w skill_key bytes no_response s)
          = mkState (self s) (sent s ++ [rq])
          /\ url rq = baseurl (self s) ++ "/api/custom_comms"
          /\ dict_get "Content-Type" (headers rq) = Some "application/json"
          /\ data rq = Some (Dict body)
          /\ dict_get "skill_key" body = Some (Bytes skill_key)
          /\ dict_get "no_response" body = Some (Value (JBool no_response)))
  /\ (forall e,
        built = Raise e ->
        send_custom_comms w skill_key bytes no_response s = (Return JNull, s))
  /\ fst (send_custom_comms w skill_key bytes no_response s) <> OutOfFuel.
Proof.
  cbv zeta. split; [| split; [| split]].
  - rewrite <- (rpc_request_serialisable skill_key bytes no_response). split.
    + intros (rq & Hb). now apply build_request_built in Hb.
    + intros [Hu Hs]. now apply build_request_ok.
  - intros rq Hb. eexists.
    split; [now apply send_custom_comms_state |].
    apply build_request_shape in Hb.
    destruct Hb as (Hurl & _ & Hd & _ & _ & Hc).
    split; [exact Hurl |]. split; [exact Hc |]. split; [exact Hd |].
    split; reflexivity.
  - intros e Hb. now apply send_custom_comms_unbuilt with e.
  - pose proof (build_request_outcome w "custom_comms"
                  (rpc_request skill_key bytes no_response) 20 (self s)) as Ho.
    destruct (build_request w (self s) "custom_comms"
                (rpc_request skill_key bytes no_response) 20)
      as [rq | e |] eqn:Hb; [| | contradiction].
    2: { rewrite (send_custom_comms_unbuilt _ _ _ _ _ _ Hb). discriminate. }
    pose proof (request_json_raises w "custom_comms"
                  (rpc_request skill_key bytes no_response) 20 s) as Hr.
    unfold send_custom_comms, try_except_Exception, bind, lift, ret.
    destruct (request_json w "custom_comms" _ 20 s) as [[p | e |] s1];
      simpl in Hr; [| rewrite Hr; discriminate | contradiction].
    destruct (truthy p); [| discriminate].
    destruct p as [| b | n | u | l | o]; cbn [py_in py_getitem fst];
      try discriminate.
    + destruct (contains "data" u); discriminate.
    + destruct (existsb _ l); discriminate.
    + destruct (dict_get "data" o) as [enc |]; [| discriminate].
      unfold b64decode_value.
      destruct enc as [| | | enc | |]; try discriminate.
      destruct (is_ascii enc); [| discriminate].
      unfold Base64.b64decode.
      destruct (Base64.a2b_loop enc 0 0 0) as [left out].
      destruct (left =? 0)%N; discriminate.
Qed.

Lemma send_custom_comms_one_request_witness :
  exists rq,
    snd (send_custom_comms (mock_world (always (ok_reply JNull)))
           "demo" "ping" false pilot)
    = mkState (self pilot) (sent pilot ++ [rq])
    /\ url rq = "http://192.168.10.1/api/custom_comms".
Proof.
  destruct (proj1 (proj2 (send_custom_comms_one_request
                            (mock_world (always (ok_reply JNull)))
                            "demo" "ping" false pilot)) _ eq_refl)
    as (body & Hs & Hu & _).
  eexists. split; [exact Hs | exact Hu].
Defined.

(** X16: of a reply whose [data] field is base64 text only that field is
    touched: it comes back decoded, and every other key of the reply comes
    back with the value it had. *)
Theorem send_custom_comms_decodes_data_only
  (w : world) (skill_key bytes : string) (no_response : bool) (s s' : state)
  (reply : dict json) (encoded decoded : string) :
  request_json w "custom_comms" (rpc_request skill_key bytes no_response) 20 s
  = (Return (JObj reply), s') ->
  dict_get "data" reply = Some (JStr encoded) ->
  is_ascii encoded = true ->
  Base64.b64decode encoded = Return decoded ->
  exists reply',
    send_custom_comms w skill_key bytes no_response s = (Return (JObj reply'), s')
    /\ dict_get "data" reply' = Some (JStr decoded)
    /\ forall k, k <> "data" -> dict_get k reply' = dict_get k reply.
Proof.
  intros Hreq Hdata Hascii Hdec.
  exists (dict_set "data" (JStr decoded) reply). split; [| split].
  - unfold send_custom_comms, try_except_Exception. rewrite Hreq.
    assert (Ht : truthy (JObj reply) = true).
    { destruct reply; [discriminate | reflexivity]. }
    rewrite Ht. unfold bind, lift, py_in, py_getitem. rewrite Hdata.
    unfold b64decode_value. rewrite Hascii, Hdec. reflexivity.
  - apply dict_get_set_same.
  - intros k Hk. now apply dict_get_set_other.
Qed.

Lemma send_custom_comms_decodes_data_only_witness :
  exists reply',
    send_custom_comms
      (mock_world (always (ok_reply (JObj [("skill_key", JStr "demo");
                                           ("data", JStr "cG9uZw==");
                                           ("seq", JNum 7)]))))
      "demo" "ping" false pilot
    = (Return (JObj reply'),
       snd (request_json
              (mock_world (always (ok_reply (JObj [("skill_key", JStr "demo");
                                                   ("data", JStr "cG9uZw==");
                                                   ("seq", JNum 7)]))))
              "custom_comms" (rpc_request "demo" "ping" false) 20 pilot))
    /\ dict_get "data" reply' = Some (JStr "pong")
    /\ forall k, k <> "data" ->
                 dict_get k reply'
                 = dict_get k [("skill_key", JStr "demo");
                               ("data", JStr "cG9uZw==");
                               ("seq", JNum 7)].
Proof.
  apply (send_custom_comms_decodes_data_only _ "demo" "ping" false pilot _
           [("skill_key", JStr "demo"); ("data", JStr "cG9uZw==");
            ("seq", JNum 7)] "cG9uZw==" "pong").
  - vm_compute. reflexivity.
  - reflexivity.
  - reflexivity.
  - reflexivity.
Defined.

(** X17: a payload that cannot be decoded is not swallowed: when the request
    returned a number other than zero or True, a list that holds the
    string [data], a string in which [data] occurs, or a dict whose [data]
    field is not a string, [send_custom_comms] raises a TypeError. *)
Theorem send_custom_comms_type_error
  (w : world) (skill_key bytes : string) (no_response : bool) (s s' : state)
  (payload : json) :
  request_json w "custom_comms" (rpc_request skill_key bytes no_response) 20 s
  = (Return payload, s') ->
  (exists n, payload = JNum n /\ n <> 0)
  \/ payload = JBool true
  \/ (exists l, payload = JArr l /\ In (JStr "data") l)
  \/ (exists u, payload = JStr u /\ contains "data" u = true)
  \/ (exists reply v, payload = JObj reply
                      /\ dict_get "data" reply = Some v
                      /\ forall u, v <> JStr u) ->
  send_custom_comms w skill_key bytes no_response s = (Raise TypeError, s').
Proof.
  intros Hreq Hp. unfold send_custom_comms, try_except_Exception.
  rewrite Hreq. unfold bind, lift, ret.
  destruct Hp as [(n & -> & Hn) | [-> | [(l & -> & Hin) | [(u & -> & Hu)
                 | (reply & v & -> & Hv & Hnot)]]]].
  - cbn [truthy]. apply Z.eqb_neq in Hn. rewrite Hn. reflexivity.
  - reflexivity.
  - assert (Ht : truthy (JArr l) = true) by (destruct l; [easy | reflexivity]).
    rewrite Ht. cbn [py_in].
    assert (He : existsb (fun x => eq_str x "data") l = true).
    { apply existsb_exists. exists (JStr "data"). split; [exact Hin |].
      reflexivity. }
    rewrite He. reflexivity.
  - assert (Ht : truthy (JStr u) = true).
    { destruct u; [discriminate | reflexivity]. }
    rewrite Ht. cbn [py_in]. rewrite Hu. reflexivity.
  - assert (Ht : truthy (JObj reply) = true).
    { destruct reply; [discriminate | reflexivity]. }
    rewrite Ht. cbn [py_in py_getitem]. rewrite Hv.
    destruct v; try reflexivity. now elim (Hnot s0).
Qed.

Lemma send_custom_comms_type_error_witness :
  fst (send_custom_comms
         (mock_world (always (ok_reply (JObj [("data", JNum 42)]))))
         "demo" "ping" false pilot)
  = Raise TypeError.
Proof.
  rewrite (send_custom_comms_type_error _ "demo" "ping" false pilot
             (snd (request_json
                     (mock_world (always (ok_reply (JObj [("data", JNum 42)]))))
                     "custom_comms" (rpc_request "demo" "ping" false) 20 pilot))
             (JObj [("data", JNum 42)])).
  - reflexivity.
  - vm_compute. reflexivity.
  - right. right. right. right.
    exists [("data", JNum 42)], (JNum 42).
    split; [reflexivity |]. split; [reflexivity | discriminate].
Defined.

